(** * Freeytzone: the background download task manager

    A shallow embedding of [utils/youtube_downloader_new.py] (the class
    [YouTubeDownloader] and the helper [parse_size]) and of the artifact
    route of [app.py], with the properties of the task engine proved over
    it.

    Conventions of the embedding.
    - A task record ([download_info], a Python dict with a fixed set of
      string keys) is a record of optional fields: [None] is "key absent",
      and [d.get(k, default)] is [default_to].
    - The registry [self.downloads] is a [gmap string download_info].
    - Python floats are exact rationals ([Q]); [time.time()] is an argument
      [now].
    - Text is ASCII: a [string] is the sequence of characters of the Python
      [str], [\d] is [0-9], and [str.lower], [str.strip], [str.isalnum] act
      on ASCII characters.
    - Code that can raise returns a [result]; a [try/except] is a match on
      it. *)

From Stdlib Require Import ZArith QArith Qminmax Lqa String Ascii List Lia.
From Stdlib Require Import DecimalString.
From stdpp Require Import gmap strings.
Import ListNotations.

Local Open Scope string_scope.

(** ** Python string operations *)

Module PyStr.

(** [sub in s] *)
Fixpoint contains (sub s : string) : bool :=
  String.prefix sub s ||
  match s with
  | EmptyString => false
  | String _ s' => contains sub s'
  end.

Definition rev_string (s : string) : string :=
  string_of_list_ascii (List.rev (list_ascii_of_string s)).

(** [s.split(sep)] for a non-empty [sep]: the pieces between the
    non-overlapping occurrences of [sep], found left to right. [skip]
    counts the characters of a separator still to be dropped; [acc] is
    the current piece, reversed. *)
Fixpoint split_go (sep : string) (skip : nat) (acc : string) (s : string)
  : list string :=
  match s with
  | EmptyString => [rev_string acc]
  | String c s' =>
      match skip with
      | S k => split_go sep k acc s'
      | O =>
          if String.prefix sep s
          then rev_string acc :: split_go sep (String.length sep - 1) "" s'
          else split_go sep 0 (String c acc) s'
      end
  end.

Definition split (sep s : string) : list string := split_go sep 0 "" s.

(** [l[-1]] and [l[1]] on the result of a split *)
Definition last_piece (l : list string) : string := List.last l "".
Definition first_piece (l : list string) : string := List.hd "" l.
Definition second_piece (l : list string) : option string := List.nth_error l 1.

(** The ASCII characters [str.strip()] removes: TAB, LF, VT, FF, CR, the
    separators 28 to 31, and the blank. *)
Definition is_space (c : ascii) : bool :=
  let n := nat_of_ascii c in
  ((9 <=? n) && (n <=? 13) || (28 <=? n) && (n <=? 32))%nat.

Fixpoint lstrip (s : string) : string :=
  match s with
  | EmptyString => EmptyString
  | String c s' => if is_space c then lstrip s' else s
  end.

Definition strip (s : string) : string :=
  rev_string (lstrip (rev_string (lstrip s))).

Definition is_digit (c : ascii) : bool :=
  let n := nat_of_ascii c in ((48 <=? n) && (n <=? 57))%nat.

Definition is_upper (c : ascii) : bool :=
  let n := nat_of_ascii c in ((65 <=? n) && (n <=? 90))%nat.

Definition is_lower (c : ascii) : bool :=
  let n := nat_of_ascii c in ((97 <=? n) && (n <=? 122))%nat.

Definition is_alnum (c : ascii) : bool :=
  is_digit c || is_upper c || is_lower c.

Definition lower_char (c : ascii) : ascii :=
  if is_upper c then ascii_of_nat (nat_of_ascii c + 32) else c.

Fixpoint lower (s : string) : string :=
  match s with
  | EmptyString => EmptyString
  | String c s' => String (lower_char c) (lower s')
  end.

(** ["".join(c for c in s if p(c))] *)
Fixpoint keep_chars (p : ascii -> bool) (s : string) : string :=
  match s with
  | EmptyString => EmptyString
  | String c s' => if p c then String c (keep_chars p s') else keep_chars p s'
  end.

Fixpoint mem_char (c : ascii) (s : string) : bool :=
  match s with
  | EmptyString => false
  | String c' s' => Ascii.eqb c c' || mem_char c s'
  end.

Fixpoint all_chars (p : ascii -> bool) (s : string) : bool :=
  match s with
  | EmptyString => true
  | String c s' => p c && all_chars p s'
  end.

(** [s.startswith(p)] and [s.endswith(p)] *)
Definition startswith (p s : string) : bool := String.prefix p s.
Definition endswith (p s : string) : bool :=
  String.prefix (rev_string p) (rev_string s).

(** the text after the last ["/"]: [posixpath.basename] *)
Fixpoint basename_go (acc : string) (s : string) : string :=
  match s with
  | EmptyString => rev_string acc
  | String c s' =>
      if Ascii.eqb c "/" then basename_go "" s' else basename_go (String c acc) s'
  end.

Definition basename (p : string) : string := basename_go "" p.

Fixpoint rindex_go (c : ascii) (i : nat) (found : option nat) (s : string)
  : option nat :=
  match s with
  | EmptyString => found
  | String c' s' =>
      rindex_go c (S i) (if Ascii.eqb c c' then Some i else found) s'
  end.

(** [s.rfind(c)], [None] for -1 *)
Definition rindex (c : ascii) (s : string) : option nat := rindex_go c 0 None s.

(** [posixpath.splitext(p)[0]]: the path without its extension; leading
    dots of the file name do not start an extension. *)
Definition splitext_root (p : string) : string :=
  let name := basename p in
  let dir := String.substring 0 (String.length p - String.length name) p in
  match rindex "." name with
  | None => p
  | Some i =>
      if all_chars (Ascii.eqb ".") (String.substring 0 i name) then p
      else dir ++ String.substring 0 i name
  end.

(** [posixpath.join(a, b)] *)
Definition path_join (a b : string) : string :=
  if startswith "/" b then b
  else if String.eqb a "" || endswith "/" a then a ++ b
  else a ++ "/" ++ b.

End PyStr.

(** ** Regular expressions ([re.search])

    A backtracking matcher for the fragment of Python's [re] syntax the
    downloader uses: literals, character classes, concatenation, greedy
    [?], [+] and [{n}], and capturing groups. A continuation receives the
    rest of the input and the groups closed so far, in the order they
    close (the order of [m.group(1)], [m.group(2)], ... for groups that
    are not nested). *)

Module Regex.

Inductive re : Type :=
| Lit (c : ascii)
| Class (p : ascii -> bool)
| Seq (r1 r2 : re)
| Opt (r : re)
| Plus (r : re)
| Rep (n : nat) (r : re)
| Group (r : re).

Definition orelse {A} (x y : option A) : option A :=
  match x with Some _ => x | None => y end.

Fixpoint run {A} (r : re) (s : string) (caps : list string)
    (k : string -> list string -> option A) : option A :=
  match r with
  | Lit c =>
      match s with
      | String c' s' => if Ascii.eqb c c' then k s' caps else None
      | EmptyString => None
      end
  | Class p =>
      match s with
      | String c' s' => if p c' then k s' caps else None
      | EmptyString => None
      end
  | Seq r1 r2 => run r1 s caps (fun s1 c1 => run r2 s1 c1 k)
  | Opt r1 => orelse (run r1 s caps k) (k s caps)
  | Plus r1 =>
      (fix loop (fuel : nat) (s : string) (caps : list string) : option A :=
         match fuel with
         | O => None
         | S fuel' =>
             run r1 s caps (fun s1 c1 =>
               orelse
                 (if (String.length s1 <? String.length s)%nat
                  then loop fuel' s1 c1 else None)
                 (k s1 c1))
         end) (S (String.length s)) s caps
  | Rep n r1 =>
      (fix rep (n : nat) (s : string) (caps : list string) : option A :=
         match n with
         | O => k s caps
         | S n' => run r1 s caps (fun s1 c1 => rep n' s1 c1)
         end) n s caps
  | Group r1 =>
      run r1 s caps (fun s1 c1 =>
        k s1 (c1 ++ [String.substring 0 (String.length s - String.length s1) s])%list)
  end.

(** [re.search(r, s)]: the groups of the leftmost match. *)
Fixpoint search (r : re) (s : string) : option (list string) :=
  match run r s [] (fun _ caps => Some caps) with
  | Some caps => Some caps
  | None =>
      match s with
      | EmptyString => None
      | String _ s' => search r s'
      end
  end.

(** [m.group(i)], [i >= 1] *)
Definition group (i : nat) (caps : list string) : string :=
  List.nth (i - 1) caps "".

Fixpoint seq (l : list re) : re :=
  match l with
  | [] => Rep 0 (Lit "000")
  | [r] => r
  | r :: l' => Seq r (seq l')
  end.

Fixpoint lit (s : string) : re :=
  match s with
  | EmptyString => Rep 0 (Lit "000")
  | String c EmptyString => Lit c
  | String c s' => Seq (Lit c) (lit s')
  end.

Definition backslash : ascii := ascii_of_nat 92.
Definition digit : re := Class PyStr.is_digit.
(** [.] matches any character but the newline *)
Definition dot : re := Class (fun c => negb (Ascii.eqb c (ascii_of_nat 10))).
Definition KMG : re := Class (fun c => PyStr.mem_char c "KMG").

(** [r'(\d+(?:\.\d+)?)%'], the one pattern of the file written with
    single backslashes. *)
Definition pct_re : re :=
  seq [Group (seq [Plus digit; Opt (seq [Lit "."; Plus digit])]); Lit "%"].

(** The other patterns are raw strings with doubled backslashes. In a
    regular expression [\\] is a literal backslash, so [\\d+] is a
    backslash followed by one or more letters [d], [\\s+] a backslash
    followed by letters [s], and [\\.] a backslash followed by any
    character. *)

(** [\\d+(?:\\.\\d+)?] *)
Definition bs_number : re :=
  seq [Lit backslash; Plus (Lit "d");
       Opt (seq [Lit backslash; dot; Lit backslash; Plus (Lit "d")])].

(** [r'(\\d+(?:\\.\\d+)?)%'] *)
Definition pct_re_escaped : re := seq [Group bs_number; Lit "%"].

(** [r'ETA\\s+((?:\\d{2}:)?\\d{2}:\\d{2})'] *)
Definition eta_re : re :=
  seq [lit "ETA"; Lit backslash; Plus (Lit "s");
       Group (seq [Opt (seq [Lit backslash; Rep 2 (Lit "d"); Lit ":"]);
                   Lit backslash; Rep 2 (Lit "d"); Lit ":";
                   Lit backslash; Rep 2 (Lit "d")])].

(** [r'(\\d+(?:\\.\\d+)?)([KMG]iB) of (\\d+(?:\\.\\d+)?)([KMG]iB)'] *)
Definition sizes_re : re :=
  seq [Group bs_number; Group (seq [KMG; lit "iB"]); lit " of ";
       Group bs_number; Group (seq [KMG; lit "iB"])].

(** [r'at\\s+(\\d+(?:\\.\\d+)?)([KMG]iB)/s'] *)
Definition speed_re : re :=
  seq [lit "at"; Lit backslash; Plus (Lit "s");
       Group bs_number; Group (seq [KMG; lit "iB"]); lit "/s"].

End Regex.

(** ** Numbers *)

Local Open Scope Q_scope.

(** [float(s)] on the spellings the callers pass: ASCII digits with an
    optional fractional part, [digits] or [digits.digits]; the value is the
    decimal the text denotes (Python rounds it to the nearest double).
    [None] is [ValueError]; every string that starts with a backslash is
    one. Other spellings Python accepts (a sign, an exponent, blanks, [inf],
    [nan]) are outside the embedding and also yield [None]. *)
Fixpoint digits_value (acc : Z) (s : string) : Z :=
  match s with
  | EmptyString => acc
  | String c s' => digits_value (10 * acc + Z.of_nat (nat_of_ascii c - 48)) s'
  end.

Definition is_digits (s : string) : bool :=
  negb (String.eqb s "") && PyStr.all_chars PyStr.is_digit s.

Definition py_float (s : string) : option Q :=
  match PyStr.split "." s with
  | [i] => if is_digits i then Some (inject_Z (digits_value 0 i)) else None
  | [i; f] =>
      if is_digits i && is_digits f
      then Some (Qred (Qmake (digits_value 0 (i ++ f))
                             (Pos.pow 10 (Pos.of_nat (String.length f)))))
      else None
  | _ => None
  end.

(** [int(x)] on a float: truncation toward zero *)
Definition py_int (x : Q) : Z := Z.quot (Qnum x) (Zpos (Qden x)).

(** Utility to convert human-readable sizes to bytes ([parse_size]).
    [None] is the [ValueError] of [float(value_str)]. *)
Definition parse_size (value_str unit_ : string) : option Q :=
  match py_float value_str with
  | None => None
  | Some v =>
      let unit_ := PyStr.lower unit_ in
      if String.eqb unit_ "kib" then Some (v * 1024)
      else if String.eqb unit_ "mib" then Some (v * 1024 ^ 2)
      else if String.eqb unit_ "gib" then Some (v * 1024 ^ 3)
      else Some v
  end.

(** ** Task records

    [download_info]: one field per key the downloader ever stores in a task
    dict, with the type of the values it stores there. *)

(** a live [subprocess.Popen] object *)
Definition proc : Type := nat.

Record download_info : Type := mk_info {
  url : option string;
  format_type : option string;
  quality : option string;
  status : option string;
  progress : option Q;
  speed : option string;
  eta : option string;
  start_time : option Q;
  expected_extension : option string;
  mime_type : option string;
  error : option string;
  output_file : option string;
  filename : option string;
  process : option proc;
  processing_stage : option string;
  processing_start_time : option Q;
  last_progress_line : option string;
  speed_bytes : option Q;
  downloaded_bytes : option Q;
  total_bytes : option Q
}.

(** [d.get(k, default)] *)
Definition default_to {A} (x : A) (o : option A) : A :=
  match o with Some v => v | None => x end.

(** [d.get(k) == v] on a text field *)
Definition is_str (o : option string) (v : string) : bool :=
  match o with Some s => String.eqb s v | None => false end.

(** the empty dict *)
Definition empty_info : download_info :=
  mk_info None None None None None None None None None None
          None None None None None None None None None None.

(** [d[k] = v], one setter per key the code assigns. *)
Definition set_status (v : string) (d : download_info) : download_info :=
  {| url := url d; format_type := format_type d; quality := quality d;
     status := Some v; progress := progress d; speed := speed d;
     eta := eta d; start_time := start_time d;
     expected_extension := expected_extension d; mime_type := mime_type d;
     error := error d; output_file := output_file d; filename := filename d;
     process := process d; processing_stage := processing_stage d;
     processing_start_time := processing_start_time d;
     last_progress_line := last_progress_line d;
     speed_bytes := speed_bytes d; downloaded_bytes := downloaded_bytes d;
     total_bytes := total_bytes d |}.

Definition set_progress (v : Q) (d : download_info) : download_info :=
  {| url := url d; format_type := format_type d; quality := quality d;
     status := status d; progress := Some v; speed := speed d; eta := eta d;
     start_time := start_time d; expected_extension := expected_extension d;
     mime_type := mime_type d; error := error d;
     output_file := output_file d; filename := filename d;
     process := process d; processing_stage := processing_stage d;
     processing_start_time := processing_start_time d;
     last_progress_line := last_progress_line d;
     speed_bytes := speed_bytes d; downloaded_bytes := downloaded_bytes d;
     total_bytes := total_bytes d |}.

Definition set_speed (v : string) (d : download_info) : download_info :=
  {| url := url d; format_type := format_type d; quality := quality d;
     status := status d; progress := progress d; speed := Some v;
     eta := eta d; start_time := start_time d;
     expected_extension := expected_extension d; mime_type := mime_type d;
     error := error d; output_file := output_file d; filename := filename d;
     process := process d; processing_stage := processing_stage d;
     processing_start_time := processing_start_time d;
     last_progress_line := last_progress_line d;
     speed_bytes := speed_bytes d; downloaded_bytes := downloaded_bytes d;
     total_bytes := total_bytes d |}.

Definition set_eta (v : string) (d : download_info) : download_info :=
  {| url := url d; format_type := format_type d; quality := quality d;
     status := status d; progress := progress d; speed := speed d;
     eta := Some v; start_time := start_time d;
     expected_extension := expected_extension d; mime_type := mime_type d;
     error := error d; output_file := output_file d; filename := filename d;
     process := process d; processing_stage := processing_stage d;
     processing_start_time := processing_start_time d;
     last_progress_line := last_progress_line d;
     speed_bytes := speed_bytes d; downloaded_bytes := downloaded_bytes d;
     total_bytes := total_bytes d |}.

Definition set_expected_extension (v : string) (d : download_info) : download_info :=
  {| url := url d; format_type := format_type d; quality := quality d;
     status := status d; progress := progress d; speed := speed d;
     eta := eta d; start_time := start_time d; expected_extension := Some v;
     mime_type := mime_type d; error := error d;
     output_file := output_file d; filename := filename d;
     process := process d; processing_stage := processing_stage d;
     processing_start_time := processing_start_time d;
     last_progress_line := last_progress_line d;
     speed_bytes := speed_bytes d; downloaded_bytes := downloaded_bytes d;
     total_bytes := total_bytes d |}.

Definition set_mime_type (v : string) (d : download_info) : download_info :=
  {| url := url d; format_type := format_type d; quality := quality d;
     status := status d; progress := progress d; speed := speed d;
     eta := eta d; start_time := start_time d;
     expected_extension := expected_extension d; mime_type := Some v;
     error := error d; output_file := output_file d; filename := filename d;
     process := process d; processing_stage := processing_stage d;
     processing_start_time := processing_start_time d;
     last_progress_line := last_progress_line d;
     speed_bytes := speed_bytes d; downloaded_bytes := downloaded_bytes d;
     total_bytes := total_bytes d |}.

Definition set_error (v : string) (d : download_info) : download_info :=
  {| url := url d; format_type := format_type d; quality := quality d;
     status := status d; progress := progress d; speed := speed d;
     eta := eta d; start_time := start_time d;
     expected_extension := expected_extension d; mime_type := mime_type d;
     error := Some v; output_file := output_file d; filename := filename d;
     process := process d; processing_stage := processing_stage d;
     processing_start_time := processing_start_time d;
     last_progress_line := last_progress_line d;
     speed_bytes := speed_bytes d; downloaded_bytes := downloaded_bytes d;
     total_bytes := total_bytes d |}.

Definition set_output_file (v : string) (d : download_info) : download_info :=
  {| url := url d; format_type := format_type d; quality := quality d;
     status := status d; progress := progress d; speed := speed d;
     eta := eta d; start_time := start_time d;
     expected_extension := expected_extension d; mime_type := mime_type d;
     error := error d; output_file := Some v; filename := filename d;
     process := process d; processing_stage := processing_stage d;
     processing_start_time := processing_start_time d;
     last_progress_line := last_progress_line d;
     speed_bytes := speed_bytes d; downloaded_bytes := downloaded_bytes d;
     total_bytes := total_bytes d |}.

Definition set_filename (v : string) (d : download_info) : download_info :=
  {| url := url d; format_type := format_type d; quality := quality d;
     status := status d; progress := progress d; speed := speed d;
     eta := eta d; start_time := start_time d;
     expected_extension := expected_extension d; mime_type := mime_type d;
     error := error d; output_file := output_file d; filename := Some v;
     process := process d; processing_stage := processing_stage d;
     processing_start_time := processing_start_time d;
     last_progress_line := last_progress_line d;
     speed_bytes := speed_bytes d; downloaded_bytes := downloaded_bytes d;
     total_bytes := total_bytes d |}.

Definition set_process (v : proc) (d : download_info) : download_info :=
  {| url := url d; format_type := format_type d; quality := quality d;
     status := status d; progress := progress d; speed := speed d;
     eta := eta d; start_time := start_time d;
     expected_extension := expected_extension d; mime_type := mime_type d;
     error := error d; output_file := output_file d; filename := filename d;
     process := Some v; processing_stage := processing_stage d;
     processing_start_time := processing_start_time d;
     last_progress_line := last_progress_line d;
     speed_bytes := speed_bytes d; downloaded_bytes := downloaded_bytes d;
     total_bytes := total_bytes d |}.

Definition set_processing_stage (v : string) (d : download_info) : download_info :=
  {| url := url d; format_type := format_type d; quality := quality d;
     status := status d; progress := progress d; speed := speed d;
     eta := eta d; start_time := start_time d;
     expected_extension := expected_extension d; mime_type := mime_type d;
     error := error d; output_file := output_file d; filename := filename d;
     process := process d; processing_stage := Some v;
     processing_start_time := processing_start_time d;
     last_progress_line := last_progress_line d;
     speed_bytes := speed_bytes d; downloaded_bytes := downloaded_bytes d;
     total_bytes := total_bytes d |}.

Definition set_processing_start_time (v : Q) (d : download_info) : download_info :=
  {| url := url d; format_type := format_type d; quality := quality d;
     status := status d; progress := progress d; speed := speed d;
     eta := eta d; start_time := start_time d;
     expected_extension := expected_extension d; mime_type := mime_type d;
     error := error d; output_file := output_file d; filename := filename d;
     process := process d; processing_stage := processing_stage d;
     processing_start_time := Some v;
     last_progress_line := last_progress_line d;
     speed_bytes := speed_bytes d; downloaded_bytes := downloaded_bytes d;
     total_bytes := total_bytes d |}.

Definition set_last_progress_line (v : string) (d : download_info) : download_info :=
  {| url := url d; format_type := format_type d; quality := quality d;
     status := status d; progress := progress d; speed := speed d;
     eta := eta d; start_time := start_time d;
     expected_extension := expected_extension d; mime_type := mime_type d;
     error := error d; output_file := output_file d; filename := filename d;
     process := process d; processing_stage := processing_stage d;
     processing_start_time := processing_start_time d;
     last_progress_line := Some v; speed_bytes := speed_bytes d;
     downloaded_bytes := downloaded_bytes d; total_bytes := total_bytes d |}.

Definition set_speed_bytes (v : Q) (d : download_info) : download_info :=
  {| url := url d; format_type := format_type d; quality := quality d;
     status := status d; progress := progress d; speed := speed d;
     eta := eta d; start_time := start_time d;
     expected_extension := expected_extension d; mime_type := mime_type d;
     error := error d; output_file := output_file d; filename := filename d;
     process := process d; processing_stage := processing_stage d;
     processing_start_time := processing_start_time d;
     last_progress_line := last_progress_line d; speed_bytes := Some v;
     downloaded_bytes := downloaded_bytes d; total_bytes := total_bytes d |}.

Definition set_downloaded_bytes (v : Q) (d : download_info) : download_info :=
  {| url := url d; format_type := format_type d; quality := quality d;
     status := status d; progress := progress d; speed := speed d;
     eta := eta d; start_time := start_time d;
     expected_extension := expected_extension d; mime_type := mime_type d;
     error := error d; output_file := output_file d; filename := filename d;
     process := process d; processing_stage := processing_stage d;
     processing_start_time := processing_start_time d;
     last_progress_line := last_progress_line d;
     speed_bytes := speed_bytes d; downloaded_bytes := Some v;
     total_bytes := total_bytes d |}.

Definition set_total_bytes (v : Q) (d : download_info) : download_info :=
  {| url := url d; format_type := format_type d; quality := quality d;
     status := status d; progress := progress d; speed := speed d;
     eta := eta d; start_time := start_time d;
     expected_extension := expected_extension d; mime_type := mime_type d;
     error := error d; output_file := output_file d; filename := filename d;
     process := process d; processing_stage := processing_stage d;
     processing_start_time := processing_start_time d;
     last_progress_line := last_progress_line d;
     speed_bytes := speed_bytes d; downloaded_bytes := downloaded_bytes d;
     total_bytes := Some v |}.

(** [del d['process']] *)
Definition del_process (d : download_info) : download_info :=
  {| url := url d; format_type := format_type d; quality := quality d;
     status := status d; progress := progress d; speed := speed d;
     eta := eta d; start_time := start_time d;
     expected_extension := expected_extension d; mime_type := mime_type d;
     error := error d; output_file := output_file d; filename := filename d;
     process := None; processing_stage := processing_stage d;
     processing_start_time := processing_start_time d;
     last_progress_line := last_progress_line d;
     speed_bytes := speed_bytes d; downloaded_bytes := downloaded_bytes d;
     total_bytes := total_bytes d |}.

(** ** The progress line parser (the output loop of [_download_thread]) *)

Definition Qlt_b (a b : Q) : bool := negb (Qle_bool b a).

(** The body of a [try] block over the task record: it may stop at a
    raise ([None]), and the assignments made before the raise stay. *)
Definition Try (A : Type) : Type := download_info -> download_info * option A.

Definition ret {A} (a : A) : Try A := fun d => (d, Some a).
Definition raise_ {A} : Try A := fun d => (d, None).
Definition bind {A B} (m : Try A) (f : A -> Try B) : Try B :=
  fun d => match m d with
           | (d', Some a) => f a d'
           | (d', None) => (d', None)
           end.
Definition read : Try download_info := fun d => (d, Some d).
Definition assign (f : download_info -> download_info) : Try unit :=
  fun d => (f d, Some tt).
Definition of_option {A} (o : option A) : Try A :=
  match o with Some a => ret a | None => raise_ end.

Notation "x <- m ;; k" := (bind m (fun x => k))
  (at level 100, m at next level, right associativity).
Notation "m ;;; k" := (bind m (fun _ => k))
  (at level 100, right associativity).

Import PyStr Regex.

Definition dec (n : Z) : string := NilZero.string_of_int (Z.to_int n).

(** [f"{n:02d}"] for [0 <= n] *)
Definition pad2 (n : Z) : string :=
  if (n <? 10)%Z then "0" ++ dec n else dec n.

(** [if "[Merger]" in line or "[VideoConvertor]" in line] *)
Definition stage_marker (line : string) : bool :=
  contains "[Merger]" line || contains "[VideoConvertor]" line.

(** Switch to processing status, cap progress at 90%. *)
Definition enter_processing (now : Q) (line : string) (d : download_info)
  : download_info :=
  let d := set_status "processing" d in
  let d := if Qlt_b 90 (default_to 0 (progress d)) then set_progress 90 d else d in
  let d := set_eta "Processing..." d in
  let d := set_processing_stage (strip line) d in
  match processing_start_time d with
  | None => set_processing_start_time now d
  | Some _ => d
  end.

(** [if "ETA" in line: eta_part = line.split("ETA")[-1].strip() ...] *)
Definition direct_eta (line : string) : option string :=
  if contains "ETA" line then
    let eta_part := strip (last_piece (split "ETA" line)) in
    if negb (String.eqb eta_part "")
       && negb (String.eqb eta_part "Unknown ETA")
       && negb (startswith "Unknown" eta_part)
    then Some eta_part else None
  else None.

(** [if "at" in line and "/s" in line:
       speed_part = line.split("at")[-1].split("ETA")[0].strip() ...] *)
Definition direct_speed (line : string) (prev : string) : string :=
  if contains "at" line && contains "/s" line then
    let speed_part :=
      strip (first_piece (split "ETA" (last_piece (split "at" line)))) in
    if negb (String.eqb speed_part "") && contains "/s" speed_part
    then speed_part else prev
  else prev.

(** 1. ETA by the pattern, or the explicit "Unknown ETA" *)
Definition regex_eta (line : string) (cur : option string) : option string :=
  match search eta_re line with
  | Some caps => Some (group 1 caps)
  | None => if contains "ETA Unknown ETA" line then Some "Unknown" else cur
  end.

(** fallback to the CLI percentage, with the escaped pattern *)
Definition escaped_pct (line : string) : Try unit :=
  match search pct_re_escaped line with
  | Some caps =>
      p <- of_option (py_float (group 1 caps)) ;;
      assign (set_progress p)
  | None => ret tt
  end.

(** 2. downloaded bytes and total bytes *)
Definition parse_bytes (line : string) : Try (option Q * option Q) :=
  d <- read ;;
  match search sizes_re line with
  | Some caps =>
      db <- of_option (parse_size (group 1 caps) (group 2 caps)) ;;
      tb <- of_option (parse_size (group 3 caps) (group 4 caps)) ;;
      assign (set_downloaded_bytes db) ;;;
      assign (set_total_bytes tb) ;;;
      (if Qlt_b 0 tb then assign (set_progress (db / tb * 100))
       else
         d' <- read ;;
         if Qlt_b (default_to 0 (progress d')) 100
         then escaped_pct line else ret tt) ;;;
      ret (Some db, Some tb)
  | None =>
      escaped_pct line ;;;
      ret (downloaded_bytes d, total_bytes d)
  end.

(** 3. speed *)
Definition parse_speed (line : string) (cur_bytes : option Q) (cur_str : string)
  : Try (option Q * string) :=
  match search speed_re line with
  | Some caps =>
      sb <- of_option (parse_size (group 1 caps) (group 2 caps)) ;;
      ret (Some sb, group 1 caps ++ group 2 caps ++ "/s")
  | None => ret (cur_bytes, cur_str)
  end.

(** 4. the ETA computed from the byte counts and the speed *)
Definition computed_eta (sb db tb : option Q) (d : download_info) : string :=
  match sb, db, tb with
  | Some sb, Some db, Some tb =>
      if Qlt_b 0 sb && Qlt_b db tb then
        let eta_seconds := py_int ((tb - db) / sb) in
        let h := (eta_seconds / 3600)%Z in
        let rem := (eta_seconds mod 3600)%Z in
        let m := (rem / 60)%Z in
        let s_rem := (rem mod 60)%Z in
        if (0 <? h)%Z then dec h ++ ":" ++ pad2 m ++ ":" ++ pad2 s_rem
        else pad2 m ++ ":" ++ pad2 s_rem
      else default_to "Calculating..." (eta d)
  | _, _, _ => default_to "Calculating..." (eta d)
  end.

(** the body of the [try] of a line with ["[download]"] and ["%"] *)
Definition parse_progress_line (line : string) : Try unit :=
  d0 <- read ;;
  let current_line_speed_str := default_to "N/A" (speed d0) in
  let current_line_speed_bytes := speed_bytes d0 in
  let current_line_eta := direct_eta line in
  let current_line_speed_str := direct_speed line current_line_speed_str in
  let current_line_eta := regex_eta line current_line_eta in
  bytes <- parse_bytes line ;;
  let '(downloaded_bytes, total_bytes) := bytes in
  sp <- parse_speed line current_line_speed_bytes current_line_speed_str ;;
  let '(current_line_speed_bytes, current_line_speed_str) := sp in
  d1 <- read ;;
  let current_line_eta :=
    match current_line_eta with
    | Some e => e
    | None => computed_eta current_line_speed_bytes downloaded_bytes total_bytes d1
    end in
  (* 5. *)
  assign (set_eta current_line_eta) ;;;
  (* with self.lock: *)
  (match total_bytes with
   | Some tb =>
       if Qlt_b 0 tb then
         db <- of_option downloaded_bytes ;;
         assign (set_progress (db / tb * 100))
       else ret tt
   | None => ret tt
   end) ;;;
  (match search pct_re line with
   | Some caps =>
       p <- of_option (py_float (group 1 caps)) ;;
       assign (set_progress p)
   | None => ret tt
   end) ;;;
  assign (set_eta current_line_eta) ;;;
  (if negb (String.eqb current_line_speed_str "N/A")
   then assign (set_speed current_line_speed_str) else ret tt) ;;;
  (match current_line_speed_bytes with
   | Some sb => assign (set_speed_bytes sb)
   | None => ret tt
   end).

(** the [except] of that [try]: preserve existing info or set defaults *)
Definition except_defaults (d : download_info) : download_info :=
  let d := set_progress (default_to 0 (progress d)) d in
  let d := set_speed (default_to "N/A" (speed d)) d in
  set_eta (default_to "N/A" (eta d)) d.

(** [elif 'Destination:' in line] *)
Definition record_destination (line : string) (d : download_info)
  : download_info :=
  match second_piece (split "Destination:" line) with
  | Some p =>
      let destination := strip p in
      let d := set_output_file destination d in
      set_filename (basename destination) d
  | None => d
  end.

(** One iteration of the output loop, after the test for cancellation. *)
Definition process_line (now : Q) (line : string) (d : download_info)
  : download_info :=
  let d := if stage_marker line then enter_processing now line d else d in
  if contains "[download]" line && contains "%" line then
    let d := set_last_progress_line (strip line) d in
    match parse_progress_line line d with
    | (d', Some _) => d'
    | (d', None) => except_defaults d'
    end
  else if contains "Destination:" line then record_destination line d
  else d.

(** ** Exceptions *)

Inductive exn : Type :=
| ValueError (msg : string)
| KeyError (key : string)
| IndexError (msg : string)
| OtherError (msg : string).

(** [str(e)] *)
Definition str_of_exn (e : exn) : string :=
  match e with
  | ValueError msg => msg
  | KeyError key => "'" ++ key ++ "'"
  | IndexError msg => msg
  | OtherError msg => msg
  end.

Inductive result (A : Type) : Type :=
| Ok (a : A)
| Raise (e : exn).
Arguments Ok {A} a.
Arguments Raise {A} e.

(** ** The persisted snapshot ([downloads_state.json])

    The JSON data model of a snapshot: an object from task ids to objects
    whose members are strings and numbers. [json.dump] refuses a [Popen]
    object ([TypeError]); after that the file is left half written. *)

Inductive jval : Type :=
| JStr (s : string)
| JNum (q : Q).

Definition jobject : Type := list (string * jval).

Inductive file : Type :=
| Missing
| Garbled
| Snapshot (doc : gmap string jobject).

Definition member {A} (k : string) (enc : A -> jval) (o : option A) : jobject :=
  match o with
  | Some v => [(k, enc v)]
  | None => []
  end.

(** the members of a record without a process handle *)
Definition members (d : download_info) : jobject :=
  (member "url" JStr (url d) ++ member "format_type" JStr (format_type d)
   ++ member "quality" JStr (quality d) ++ member "status" JStr (status d)
   ++ member "progress" JNum (progress d) ++ member "speed" JStr (speed d)
   ++ member "eta" JStr (eta d) ++ member "start_time" JNum (start_time d)
   ++ member "expected_extension" JStr (expected_extension d)
   ++ member "mime_type" JStr (mime_type d) ++ member "error" JStr (error d)
   ++ member "output_file" JStr (output_file d)
   ++ member "filename" JStr (filename d)
   ++ member "processing_stage" JStr (processing_stage d)
   ++ member "processing_start_time" JNum (processing_start_time d)
   ++ member "last_progress_line" JStr (last_progress_line d)
   ++ member "speed_bytes" JNum (speed_bytes d)
   ++ member "downloaded_bytes" JNum (downloaded_bytes d)
   ++ member "total_bytes" JNum (total_bytes d))%list.

(** what [json.dump] writes for one record; [None] is its [TypeError] *)
Definition info_to_json (d : download_info) : option jobject :=
  match process d with
  | Some _ => None
  | None => Some (members d)
  end.

Fixpoint assoc (k : string) (l : jobject) : option jval :=
  match l with
  | [] => None
  | (k', v) :: l' => if String.eqb k k' then Some v else assoc k l'
  end.

(** A member read back at the type the downloader stores under that key;
    the outer [None] is a value of another type, which no task record of
    this embedding holds. *)
Definition str_member (k : string) (l : jobject) : option (option string) :=
  match assoc k l with
  | None => Some None
  | Some (JStr s) => Some (Some s)
  | Some (JNum _) => None
  end.

Definition num_member (k : string) (l : jobject) : option (option Q) :=
  match assoc k l with
  | None => Some None
  | Some (JNum q) => Some (Some q)
  | Some (JStr _) => None
  end.

Definition known_keys : list string :=
  ["url"; "format_type"; "quality"; "status"; "progress"; "speed"; "eta";
   "start_time"; "expected_extension"; "mime_type"; "error"; "output_file";
   "filename"; "processing_stage"; "processing_start_time";
   "last_progress_line"; "speed_bytes"; "downloaded_bytes"; "total_bytes"].

Definition known (k : string) : bool :=
  List.existsb (String.eqb k) known_keys.

(** what [json.load] gives back for one record, as a task record; [None]
    when the object is not one (an unknown key, or a value of another
    type) *)
Definition info_of_json (l : jobject) : option download_info :=
  if negb (List.forallb (fun kv => known (fst kv)) l) then None else
  match str_member "url" l, str_member "format_type" l,
        str_member "quality" l, str_member "status" l,
        num_member "progress" l, str_member "speed" l, str_member "eta" l,
        num_member "start_time" l, str_member "expected_extension" l,
        str_member "mime_type" l with
  | Some f1, Some f2, Some f3, Some f4, Some f5, Some f6, Some f7, Some f8,
    Some f9, Some f10 =>
      match str_member "error" l, str_member "output_file" l,
            str_member "filename" l, str_member "processing_stage" l,
            num_member "processing_start_time" l,
            str_member "last_progress_line" l, num_member "speed_bytes" l,
            num_member "downloaded_bytes" l, num_member "total_bytes" l with
      | Some f11, Some f12, Some f13, Some f15, Some f16, Some f17, Some f18,
        Some f19, Some f20 =>
          Some (mk_info f1 f2 f3 f4 f5 f6 f7 f8 f9 f10 f11 f12 f13 None
                        f15 f16 f17 f18 f19 f20)
      | _, _, _, _, _, _, _, _, _ => None
      end
  | _, _, _, _, _, _, _, _, _, _ => None
  end.

(** ** Polling: [get_progress] *)

Record progress_view : Type := {
  pv_status : string;
  pv_progress : Q;
  pv_speed : string;
  pv_eta : string;
  pv_format_type : string;
  pv_elapsed : Z
}.

(** the percentage, ETA and speed read again from the raw progress line *)
Definition reparse_raw_line (st : string) (raw_line : string)
    (cur : Q * string * string) : Q * string * string :=
  let '(progress, eta, speed) := cur in
  if negb (String.eqb raw_line "") && contains "[download]" raw_line
     && contains "%" raw_line
  then
    let progress :=
      match search pct_re raw_line with
      | Some caps =>
          match py_float (group 1 caps) with
          | Some parsed_pct =>
              if negb (String.eqb st "processing") && Qlt_b 90 parsed_pct
              then 90 else Qmin 90 parsed_pct
          | None => progress
          end
      | None => progress
      end in
    let eta :=
      if contains "ETA" raw_line then
        let eta_part := strip (last_piece (split "ETA" raw_line)) in
        if negb (String.eqb eta_part "") && negb (startswith "Unknown" eta_part)
        then eta_part else eta
      else eta in
    let speed :=
      if contains "at" raw_line && contains "/s" raw_line then
        let speed_part :=
          strip (first_piece (split "ETA" (last_piece (split "at" raw_line)))) in
        if contains "/s" speed_part then speed_part else speed
      else speed in
    (progress, eta, speed)
  else cur.

(** the view of one record at time [now] *)
Definition view_of (now : Q) (download_info : download_info) : progress_view :=
  let st := default_to "unknown" (status download_info) in
  let progress := default_to 0 (progress download_info) in
  let speed := default_to "Calculating..." (speed download_info) in
  let eta := default_to "Calculating..." (eta download_info) in
  let format_type := default_to "" (format_type download_info) in
  let elapsed := py_int (now - default_to now (start_time download_info)) in
  let raw_line := default_to "" (last_progress_line download_info) in
  let '(progress, eta, speed) :=
    reparse_raw_line st raw_line (progress, eta, speed) in
  (* force progress to be above 0 if downloading *)
  let progress :=
    if String.eqb st "downloading" && Qlt_b progress (1 # 10)
    then 1 # 10 else progress in
  let '(progress, eta, speed) :=
    if String.eqb st "processing" then
      let processing_start :=
        default_to (default_to now (start_time download_info))
                   (processing_start_time download_info) in
      let processing_elapsed := now - processing_start in
      let processing_progress := Qmin 9 (processing_elapsed / 10 * 9) in
      let processing_stage := default_to "" (processing_stage download_info) in
      (90 + processing_progress,
       (if contains "Merger" processing_stage then "Merging streams..."
        else if contains "VideoConvertor" processing_stage
             then "Preparing for download in your device..."
             else "Processing..."),
       "Processing...")
    else (progress, eta, speed) in
  {| pv_status := st; pv_progress := progress; pv_speed := speed;
     pv_eta := eta; pv_format_type := format_type; pv_elapsed := elapsed |}.

(** [get_progress(download_id)] *)
Definition get_progress (now : Q) (downloads : gmap string download_info)
    (download_id : string) : result progress_view :=
  match downloads !! download_id with
  | None => Raise (ValueError "Download ID not found")
  | Some download_info => Ok (view_of now download_info)
  end.

(** ** The artifact: [get_download_file] and its route *)

Definition triple : Type := option string * option string * option string.

Definition get_download_file (downloads : gmap string download_info)
    (download_id : string) : triple :=
  match downloads !! download_id with
  | None => (None, None, None)
  | Some download_info =>
      if negb (is_str (status download_info) "completed")
      then (None, None, None)
      else (output_file download_info, filename download_info,
            mime_type download_info)
  end.

Inductive response : Type :=
| NotFound404 (msg : string)
| SendFile (file_path filename : string) (mime_type : option string).

(** [not x] on an optional string: [None] and the empty string are falsy *)
Definition falsy (o : option string) : bool :=
  match o with
  | None => true
  | Some s => String.eqb s ""
  end.

(** [get_download_file_route], up to the call of [send_file] *)
Definition get_download_file_route (downloads : gmap string download_info)
    (download_id : string) : response :=
  let '(file_path, filename, mime_type) :=
    get_download_file downloads download_id in
  if falsy file_path || falsy filename
  then NotFound404 "File not found or download not complete"
  else SendFile (default_to "" file_path) (default_to "" filename) mime_type.

(** ** The downloader object and its surroundings *)

(** a [pathlib.Path] found by a glob: [str(f)], [f.name], [f.suffix] *)
Record dir_entry : Type := {
  de_path : string;
  de_name : string;
  de_suffix : string
}.

(** what the thumbnail branch reads of [get_video_info(url)]:
    [video_info['thumbnails']] (the [url] member of each entry) and
    [video_info['title']]; [None] is a missing key *)
Record video_info : Type := {
  vi_thumbnails : option (list (option string));
  vi_title : option string
}.

(** What the outside answers to one run of [_download_thread]. The command
    line handed to [Popen] (format selector, cookie file, proxy) is not
    embedded: it reaches the task record through the subprocess only. *)
Record run_env : Type := {
  env_popen : result proc;           (* subprocess.Popen(...) *)
  env_output : list string;          (* the lines of process.stdout *)
  env_return_code : Z;               (* process.wait() *)
  env_exists : string -> bool;       (* os.path.exists *)
  env_glob_all : list dir_entry;     (* Path(output_path).glob('*') *)
  env_glob_dot : list dir_entry;     (* Path(output_path).glob('*.*') *)
  env_video_info : video_info;       (* self.get_video_info(url) *)
  env_http : result Z;               (* requests.get(...).status_code *)
  env_write : option exn             (* writing the thumbnail file *)
}.

(** where a runner thread stands *)
Inductive pc : Type :=
| AtStart
| Launching
| Reading (out : list string)
| Waiting
| PostProcessing
| Finished.

Record thread : Type := {
  th_pc : pc;
  th_format_type : string;
  th_env : run_env
}.

Record world : Type := {
  downloads : gmap string download_info;   (* self.downloads *)
  state_file : file;                        (* downloads_state.json *)
  writable : bool;                          (* can the state file be written *)
  signals : list proc;                      (* process.terminate() calls *)
  threads : gmap string thread;             (* runner threads, by task id *)
  ffmpeg_available : bool;
  temp_dir : string
}.

Definition with_downloads (v : gmap string download_info) (w : world) : world :=
  {| downloads := v; state_file := state_file w; writable := writable w;
     signals := signals w; threads := threads w;
     ffmpeg_available := ffmpeg_available w; temp_dir := temp_dir w |}.

Definition with_state_file (v : file) (w : world) : world :=
  {| downloads := downloads w; state_file := v; writable := writable w;
     signals := signals w; threads := threads w;
     ffmpeg_available := ffmpeg_available w; temp_dir := temp_dir w |}.

Definition with_signals (v : list proc) (w : world) : world :=
  {| downloads := downloads w; state_file := state_file w;
     writable := writable w; signals := v; threads := threads w;
     ffmpeg_available := ffmpeg_available w; temp_dir := temp_dir w |}.

Definition with_threads (v : gmap string thread) (w : world) : world :=
  {| downloads := downloads w; state_file := state_file w;
     writable := writable w; signals := signals w; threads := v;
     ffmpeg_available := ffmpeg_available w; temp_dir := temp_dir w |}.

(** [self.downloads[download_id] = d] *)
Definition store (download_id : string) (d : download_info) (w : world) : world :=
  with_downloads (<[download_id := d]> (downloads w)) w.

(** ** Persistence: [_save_downloads] and [_load_downloads] *)

(** [json.dump(downloads_copy, f)]; [None] is its [TypeError] *)
Definition dump (copy : gmap string download_info) : option (gmap string jobject) :=
  if decide (map_Forall (fun _ d => is_Some (info_to_json d)) copy)
  then Some (omap info_to_json copy) else None.

Definition _save_downloads (w : world) : world :=
  if writable w then
    let downloads_copy := del_process <$> downloads w in
    match dump downloads_copy with
    | Some doc => with_state_file (Snapshot doc) w
    | None => with_state_file Garbled w
    end
  else w.

(** [json.load(f)] as a registry of task records; [None] when the document
    holds an object that is not a task record of this embedding *)
Definition load (doc : gmap string jobject) : option (gmap string download_info) :=
  if decide (map_Forall (fun _ o => is_Some (info_of_json o)) doc)
  then Some (omap info_of_json doc) else None.

(** [_load_downloads]: the registry after it, from the registry before *)
Definition _load_downloads (current : gmap string download_info) (f : file)
  : option (gmap string download_info) :=
  match f with
  | Missing => Some current
  | Garbled => Some ∅
  | Snapshot doc => load doc
  end.

(** [YouTubeDownloader(temp_dir)]: an empty registry, then the reload. No
    thread is created. *)
Definition new_downloader (temp_dir : string) (ffmpeg writable : bool) (f : file)
  : option world :=
  match _load_downloads ∅ f with
  | Some reg =>
      Some {| downloads := reg; state_file := f; writable := writable;
              signals := []; threads := ∅; ffmpeg_available := ffmpeg;
              temp_dir := temp_dir |}
  | None => None
  end.

(** ** Cancellation: [cancel_download] *)

Definition is_terminal (d : download_info) : bool :=
  is_str (status d) "completed" || is_str (status d) "failed"
  || is_str (status d) "canceled".

Definition cancel_download (download_id : string) (w : world) : bool * world :=
  match downloads w !! download_id with
  | None => (false, w)
  | Some download_info =>
      if is_terminal download_info then (true, w)
      else
        let w := store download_id (set_status "canceled" download_info) w in
        (* Terminate the process if it exists *)
        let w :=
          match process download_info with
          | Some p => with_signals (p :: signals w) w
          | None => w
          end in
        (true, _save_downloads w)
  end.

(** ** The runner thread: [_download_thread]

    One step of a thread is the code between two points where another
    thread can observe or change the record: the first assignment of the
    status, the launch, one iteration of the output loop, the wait, and the
    work after a clean exit. The record is read from and written to the
    registry at each step (no step of this embedding removes a record, so
    the dict the thread holds and the registry entry are the same object
    throughout). *)

Definition in_list (s : string) (l : list string) : bool :=
  List.existsb (String.eqb s) l.

Definition set_pc (download_id : string) (t : thread) (p : pc) (w : world)
  : world :=
  with_threads
    (<[download_id := {| th_pc := p; th_format_type := th_format_type t;
                         th_env := th_env t |}]> (threads w)) w.

(** the [except Exception as e] that closes the thread function *)
Definition fail_task (download_id : string) (e : exn) (w : world) : world :=
  match downloads w !! download_id with
  | Some d =>
      _save_downloads
        (store download_id (set_error (str_of_exn e) (set_status "failed" d)) w)
  | None => w
  end.

(** [elif format_type == 'thumbnail']: the record at the [return], or the
    exception raised before any assignment *)
Definition thumbnail_branch (output_path : string) (env : run_env)
    (d : download_info) : result download_info :=
  match vi_thumbnails (env_video_info env) with
  | None => Raise (KeyError "thumbnails")
  | Some [] => Raise (ValueError "No thumbnails found for this video")
  | Some (best_thumbnail :: _) =>
      match best_thumbnail with
      | None => Raise (KeyError "url")
      | Some thumbnail_url =>
          match env_http env with
          | Raise e => Raise e
          | Ok status_code =>
              if negb (status_code =? 200)%Z
              then Raise (ValueError ("Failed to download thumbnail: HTTP "
                                      ++ dec status_code))
              else
                match vi_title (env_video_info env) with
                | None => Raise (KeyError "title")
                | Some title =>
                    let filename :=
                      keep_chars (fun c => is_alnum c || mem_char c "._- ")
                                 (title ++ "_thumbnail.jpg") in
                    let file_path := path_join output_path filename in
                    match env_write env with
                    | Some e => Raise e
                    | None =>
                        let d := set_output_file file_path d in
                        let d := set_filename filename d in
                        let d := set_mime_type "image/jpeg" d in
                        let d := set_status "completed" d in
                        Ok (set_progress 100 d)
                    end
                end
          end
      end
  end.

(** [subprocess.Popen(local_command, ...)] and [download_info['process']] *)
Definition spawn (download_id : string) (t : thread) (d : download_info)
    (w : world) : world :=
  match env_popen (th_env t) with
  | Raise e => set_pc download_id t Finished (fail_task download_id e (store download_id d w))
  | Ok p =>
      set_pc download_id t (Reading (env_output (th_env t)))
             (store download_id (set_process p d) w)
  end.

(** from the cookie harvest to the launch of the subprocess *)
Definition launch (download_id : string) (t : thread) (d : download_info)
    (w : world) : world :=
  let format_type := th_format_type t in
  let output_path := path_join (temp_dir w) download_id in
  if String.eqb format_type "video" then
    if negb (ffmpeg_available w) then
      let d := set_status "failed" d in
      let d := set_error "ffmpeg not found in PATH" d in
      set_pc download_id t Finished (_save_downloads (store download_id d w))
    else
      let d := set_expected_extension "mp4" d in
      let d := set_mime_type "video/mp4" d in
      spawn download_id t d w
  else if String.eqb format_type "audio" then
    if negb (ffmpeg_available w) then
      let d := set_status "failed" d in
      let d := set_error "ffmpeg is required for audio conversion; please install ffmpeg and ensure it is in your PATH" d in
      set_pc download_id t Finished (_save_downloads (store download_id d w))
    else
      let d := set_expected_extension "mp3" d in
      let d := set_mime_type "audio/mpeg" d in
      spawn download_id t d w
  else if String.eqb format_type "thumbnail" then
    match thumbnail_branch output_path (th_env t) d with
    | Ok d => set_pc download_id t Finished (_save_downloads (store download_id d w))
    | Raise e => set_pc download_id t Finished (fail_task download_id e w)
    end
  else
    set_pc download_id t Finished
           (fail_task download_id (ValueError "No download command generated") w).

(** one iteration of [for line in iter(process.stdout.readline, '')] *)
Definition read_line (now : Q) (download_id : string) (t : thread)
    (line : string) (rest : list string) (d : download_info) (w : world)
  : world :=
  if is_str (status d) "canceled" then
    (* process.terminate(); break *)
    let w :=
      match process d with
      | Some p => with_signals (p :: signals w) w
      | None => w
      end in
    set_pc download_id t Waiting w
  else
    set_pc download_id t (Reading rest)
           (store download_id (process_line now line d) w).

(** [return_code = process.wait()] and the test that follows *)
Definition after_wait (download_id : string) (t : thread) (d : download_info)
    (w : world) : world :=
  let return_code := env_return_code (th_env t) in
  if (return_code =? 0)%Z && negb (is_str (status d) "canceled") then
    (* yt-dlp finished, but post-processing may still be running *)
    let d := set_status "processing" d in
    let d := set_progress 99 d in
    let d := set_eta "Processing..." d in
    let d := set_speed "N/A" d in
    set_pc download_id t PostProcessing
           (_save_downloads (store download_id d w))
  else
    let d := set_status "failed" d in
    let d := set_error ("Download process exited with code " ++ dec return_code) d in
    set_pc download_id t Finished (store download_id d w).

Definition video_extensions : list string := [".mp4"; ".webm"; ".mkv"].

(** Locating the output file after a clean exit, for a video or an audio
    task (the branches for [format_type == 'thumbnail'] cannot be reached:
    the thumbnail branch has returned). *)
Definition locate_output (env : run_env) (d : download_info)
  : download_info * bool :=
  let d :=
    match output_file d with
    | None =>
        match env_glob_all env with
        | f :: _ => set_filename (de_name f) (set_output_file (de_path f) d)
        | [] => d
        end
    | Some _ => d
    end in
  let '(d, file_found) :=
    match output_file d with
    | Some out =>
        if env_exists env out then (d, true)
        else
          match List.find (fun ext => env_exists env (splitext_root out ++ ext))
                          video_extensions with
          | Some ext =>
              let test_path := splitext_root out ++ ext in
              (set_filename (basename test_path) (set_output_file test_path d),
               true)
          | None => (d, false)
          end
    | None => (d, false)
    end in
  if file_found then (d, true)
  else
    match List.filter (fun f => in_list (lower (de_suffix f)) video_extensions)
                      (env_glob_dot env) with
    | f :: _ => (set_filename (de_name f) (set_output_file (de_path f) d), true)
    | [] => (d, false)
    end.

Definition post_process (env : run_env) (d : download_info) : download_info :=
  let '(d, file_found) := locate_output env d in
  let d :=
    if file_found then d
    else
      let d := set_status "failed" d in
      set_error "Download completed but file not found" d in
  (* When everything is truly done: *)
  let d := set_status "completed" d in
  let d := set_progress 100 d in
  let d := set_eta "Done" d in
  set_speed "Complete" d.

(** the next step of the thread of task [download_id] *)
Definition thread_step (now : Q) (download_id : string) (w : world) : world :=
  match threads w !! download_id with
  | None => w
  | Some t =>
      match downloads w !! download_id with
      | None => set_pc download_id t Finished w
      | Some d =>
          match th_pc t with
          | AtStart =>
              set_pc download_id t Launching
                     (store download_id (set_status "downloading" d) w)
          | Launching => launch download_id t d w
          | Reading [] => set_pc download_id t Waiting w
          | Reading (line :: rest) => read_line now download_id t line rest d w
          | Waiting => after_wait download_id t d w
          | PostProcessing =>
              set_pc download_id t Finished
                     (_save_downloads
                        (store download_id (post_process (th_env t) d) w))
          | Finished => w
          end
      end
  end.

(** ** Starting a task: URL validation and [start_download] *)

(** the record [start_download] stores for a new task *)
Definition starting_record (now : Q) (u f q : string) : download_info :=
  {| url := Some u; format_type := Some f; quality := Some q;
     status := Some "starting"; progress := Some 0;
     speed := Some "Calculating..."; eta := Some "Calculating...";
     start_time := Some now; expected_extension := None; mime_type := None;
     error := None; output_file := None; filename := None; process := None;
     processing_stage := None; processing_start_time := None;
     last_progress_line := None; speed_bytes := None;
     downloaded_bytes := None; total_bytes := None |}.

(** the parts of [urlparse(url)] the validator reads *)
Record parsed_url : Type := {
  pu_netloc : string;
  pu_path : string;
  pu_query : string
}.

Section Downloader.

(** [urllib.parse.urlparse] and [urllib.parse.parse_qs], which may
    raise *)
Variable urlparse : string -> result parsed_url.
Variable parse_qs : string -> result (gmap string (list string)).

(** the body of the [try] of [_is_valid_youtube_url] *)
Definition valid_youtube_url_body (url : string) : result bool :=
  match urlparse url with
  | Raise e => Raise e
  | Ok parsed_url =>
      let netloc := pu_netloc parsed_url in
      if negb (in_list netloc ["www.youtube.com"; "youtube.com"; "youtu.be"])
      then Ok false
      else if in_list netloc ["www.youtube.com"; "youtube.com"] then
        match parse_qs (pu_query parsed_url) with
        | Raise e => Raise e
        | Ok query =>
            match query !! "v" with
            | None => Ok false
            | Some [] => Raise (IndexError "list index out of range")
            | Some (v :: _) => Ok (String.length v =? 11)%nat
            end
        end
      else if String.eqb netloc "youtu.be" then
        let path := pu_path parsed_url in
        Ok ((1 <? String.length path)%nat
            && (String.length (String.substring 1 (String.length path - 1) path)
                =? 11)%nat)
      else Ok false
  end.

(** Validate if the URL is a valid YouTube URL. *)
Definition _is_valid_youtube_url (url : string) : result bool :=
  match valid_youtube_url_body url with
  | Ok b => Ok b
  | Raise _ => Ok false
  end.

(** [start_download(url, format_type, quality)]; [download_id] is the
    value of [str(uuid.uuid4())] and [env] what the new thread will
    meet. *)
Definition start_download (now : Q) (download_id : string) (env : run_env)
    (url format_type quality : string) (w : world) : result string * world :=
  match _is_valid_youtube_url url with
  | Raise e => (Raise e, w)
  | Ok false => (Raise (ValueError "Invalid YouTube URL"), w)
  | Ok true =>
      if negb (in_list format_type ["video"; "audio"; "thumbnail"]) then
        (Raise (ValueError "Invalid format type. Must be 'video', 'audio', or 'thumbnail'"), w)
      else
        let d := starting_record now url format_type quality in
        let w := _save_downloads (store download_id d w) in
        let w :=
          with_threads
            (<[download_id := {| th_pc := AtStart;
                                 th_format_type := format_type;
                                 th_env := env |}]> (threads w)) w in
        (Ok download_id, w)
  end.

(** What can happen to a downloader: a start (with a fresh task id), a
    step of a runner thread, a cancel request. Polling changes nothing. *)
Inductive event : Type :=
| EStart (now : Q) (download_id : string) (env : run_env)
         (url format_type quality : string)
| ERun (now : Q) (download_id : string)
| ECancel (download_id : string).

Definition apply_event (ev : event) (w : world) : world :=
  match ev with
  | EStart now download_id env url format_type quality =>
      snd (start_download now download_id env url format_type quality w)
  | ERun now download_id => thread_step now download_id w
  | ECancel download_id => snd (cancel_download download_id w)
  end.

(** [uuid4] gives an id that is not in the registry. *)
Definition admissible (ev : event) (w : world) : Prop :=
  match ev with
  | EStart _ download_id _ _ _ _ => downloads w !! download_id = None
  | _ => True
  end.

Inductive reaches : world -> world -> Prop :=
| reaches_refl w : reaches w w
| reaches_step w w' ev :
    reaches w w' -> admissible ev w' -> reaches w (apply_event ev w').

End Downloader.

(** ** Retention: [cleanup_old_downloads]

    The registry side of the sweep. The directory of an expired task is
    removed first; [remove_raises download_id] tells that its path exists,
    is not a directory and [os.remove] raises, in which case the record is
    kept (the [del] is skipped). A failure inside the removal of a
    directory is caught and the record deleted all the same. Threads are
    not stopped by the sweep. *)

(** [age > max_age_seconds], a record without [start_time] counting from
    time 0 *)
Definition expired (current_time max_age_seconds : Q) (d : download_info)
  : bool :=
  Qlt_b max_age_seconds (current_time - default_to 0 (start_time d)).

Definition cleanup_old_downloads (current_time max_age_seconds : Q)
    (remove_raises : string -> bool) (w : world) : nat * world :=
  let expired_ids :=
    filter (fun kv => expired current_time max_age_seconds (snd kv) = true)
           (downloads w) in
  let kept :=
    filter (fun kv => ~ (expired current_time max_age_seconds (snd kv) = true
                         /\ remove_raises (fst kv) = false))
           (downloads w) in
  let w := with_downloads kept w in
  (* Save updated state *)
  let w := if decide (expired_ids = ∅) then w else _save_downloads w in
  (size expired_ids, w).

(** ** The HTTP boundary ([app.py])

    The routes up to [jsonify]: the reply is the value handed to it and
    the status code. The body of a download request is a JSON object whose
    members, when present, are strings. *)

Inductive reply : Type :=
| ReplyError (code : Z) (msg : string)
| ReplyDownloadId (download_id : string)
| ReplyProgress (v : progress_view)
| ReplySuccess (success : bool).

(** the JSON body of a download request: [url], [format], [quality] *)
Record download_request : Type := {
  rq_url : option string;
  rq_format : option string;
  rq_quality : option string
}.

Section Routes.

Variable urlparse : string -> result parsed_url.
Variable parse_qs : string -> result (gmap string (list string)).

(** [POST /api/download] *)
Definition download_video_route (now : Q) (fresh_id : string) (env : run_env)
    (data : download_request) (w : world) : reply * world :=
  let url := rq_url data in
  let format_type := rq_format data in
  let quality := default_to "best" (rq_quality data) in
  if falsy url || falsy format_type
  then (ReplyError 400 "URL and format type are required", w)
  else
    match start_download urlparse parse_qs now fresh_id env
            (default_to "" url) (default_to "" format_type) quality w with
    | (Ok download_id, w') => (ReplyDownloadId download_id, w')
    | (Raise e, w') => (ReplyError 500 (str_of_exn e), w')
    end.

End Routes.

(** [GET /api/progress/<download_id>] *)
Definition get_progress_route (now : Q) (download_id : string) (w : world)
  : reply :=
  match get_progress now (downloads w) download_id with
  | Ok progress => ReplyProgress progress
  | Raise e => ReplyError 500 (str_of_exn e)
  end.

(** [POST /api/cancel/<download_id>] *)
Definition cancel_download_route (download_id : string) (w : world)
  : reply * world :=
  let '(result, w') := cancel_download download_id w in
  (ReplySuccess result, w').

(** ** The video id: [extract_video_id]

    The two patterns of [extract_video_id] use alternation, which the
    pattern type above has not. A matcher is what [Regex.run] makes of a
    pattern: it consumes a prefix of the input and hands the rest, with
    the groups, to its continuation. Alternation tries its branches in
    order with the same continuation, which is how a backtracking matcher
    treats [A|B]. *)

Definition matcher (A : Type) : Type :=
  string -> list string -> (string -> list string -> option A) -> option A.

Definition m_re {A} (r : re) : matcher A := run r.

Definition m_seq {A} (m1 m2 : matcher A) : matcher A :=
  fun s caps k => m1 s caps (fun s1 c1 => m2 s1 c1 k).

Fixpoint m_alt {A} (branches : list (matcher A)) : matcher A :=
  fun s caps k =>
    match branches with
    | [] => None
    | m :: rest => orelse (m s caps k) (m_alt rest s caps k)
    end.

(** [re.search] for a matcher: the groups of the leftmost match *)
Fixpoint m_search (m : matcher (list string)) (s : string)
  : option (list string) :=
  match m s [] (fun _ caps => Some caps) with
  | Some caps => Some caps
  | None =>
      match s with
      | EmptyString => None
      | String _ s' => m_search m s'
      end
  end.

(** [r*] is [(r+)?] *)
Definition star (r : re) : re := Opt (Plus r).

(** [\w] and the hyphen: the class [[\w-]] *)
Definition id_char (c : ascii) : bool :=
  is_alnum c || Ascii.eqb c "_" || Ascii.eqb c "-".

(** [[^/\n\s]]; the newline is a space *)
Definition segment_char (c : ascii) : bool :=
  negb (Ascii.eqb c "/") && negb (is_space c).

(** [(?:[^/\n\s]+/watch\S*v=|embed/|v/|shorts/|live/)] *)
Definition video_url_path {A} : matcher A :=
  m_alt
    [ m_re (seq [Plus (Class segment_char); lit "/watch";
                 star (Class (fun c => negb (is_space c)));
                 lit "v="]);
      m_re (lit "embed/");
      m_re (lit "v/");
      m_re (lit "shorts/");
      m_re (lit "live/") ].

(** [youtube(?:-nocookie)?\.com/] *)
Definition youtube_com : re :=
  seq [lit "youtube"; Opt (lit "-nocookie"); lit ".com/"].

(** [(?:youtube(?:-nocookie)?\.com/(?:...)|youtu\.be/)] *)
Definition video_url_prefix {A} : matcher A :=
  m_alt
    [ m_seq (m_re youtube_com) video_url_path;
      m_re (lit "youtu.be/") ].

(** [([\w-]{11})] *)
Definition video_id_group : re := Group (Rep 11 (Class id_char)).

(** the first pattern of [extract_video_id] *)
Definition video_id_pattern : matcher (list string) :=
  m_seq video_url_prefix (m_re video_id_group).

(** the second pattern: the first, followed by an optional group made of
    a question mark and any characters *)
Definition video_id_pattern_query : matcher (list string) :=
  m_seq video_url_prefix
        (m_seq (m_re video_id_group)
               (m_re (Opt (seq [Lit "?"; star dot])))).

(** [for pattern in patterns: match = re.search(pattern, url) ...] *)
Definition extract_video_id (url : string) : option string :=
  match m_search video_id_pattern url with
  | Some caps => Some (group 1 caps)
  | None =>
      match m_search video_id_pattern_query url with
      | Some caps => Some (group 1 caps)
      | None => None
      end
  end.

(** ** The vocabulary of the statements *)

(** two unit names that differ by case only *)
Definition same_unit (a b : string) : Prop := lower a = lower b.

(** a URL of the short form, with an 11-character video id *)
Definition sample_url : string := "https://youtu.be/ABCDEFGHIJK".

(** the status of a task in the registry *)
Definition status_of (w : world) (download_id : string) : option string :=
  match downloads w !! download_id with
  | Some d => status d
  | None => None
  end.

(** where the runner thread of a task stands *)
Definition pc_of (w : world) (download_id : string) : option pc :=
  match threads w !! download_id with
  | Some t => Some (th_pc t)
  | None => None
  end.

(** a subprocess that prints [out] and exits with [code] *)
Definition sample_env (out : list string) (code : Z) : run_env :=
  {| env_popen := Ok 7%nat; env_output := out; env_return_code := code;
     env_exists := fun _ => true; env_glob_all := []; env_glob_dot := [];
     env_video_info := {| vi_thumbnails := None; vi_title := Some "N/A" |};
     env_http := Ok 200%Z; env_write := None |}.

(** a downloader with no task yet *)
Definition fresh_world : world :=
  {| downloads := ∅; state_file := Missing; writable := true; signals := [];
     threads := ∅; ffmpeg_available := true; temp_dir := "/tmp" |}.

(** what [urlparse] answers for [sample_url] *)
Definition sample_urlparse (_ : string) : result parsed_url :=
  Ok {| pu_netloc := "youtu.be"; pu_path := "/ABCDEFGHIJK"; pu_query := "" |}.

(** the query string of [sample_url] is empty *)
Definition sample_parse_qs (_ : string) : result (gmap string (list string)) :=
  Ok ∅.

(** the downloader after [start_download(sample_url, format_type)], which
    returned the task id ["t1"] *)
Definition sample_world (format_type : string) (env : run_env) : world :=
  snd (start_download sample_urlparse sample_parse_qs 0 "t1" env sample_url
                      format_type "best" fresh_world).

(** [n] steps of the runner thread of a task *)
Fixpoint run_thread (n : nat) (now : Q) (download_id : string) (w : world)
  : world :=
  match n with
  | O => w
  | S n' => run_thread n' now download_id (thread_step now download_id w)
  end.

(** one thumbnail is listed and the request for it answers [code] *)
Definition thumbnail_env (code : Z) : run_env :=
  {| env_popen := Ok 7%nat; env_output := []; env_return_code := 0;
     env_exists := fun _ => true; env_glob_all := []; env_glob_dot := [];
     env_video_info :=
       {| vi_thumbnails := Some [Some "https://i.ytimg.com/vi/ABCDEFGHIJK/hq.jpg"];
          vi_title := Some "A title" |};
     env_http := Ok code; env_write := None |}.

(** A prior state is known when its byte counters, if any, were recorded
    together, as the parser records them. *)
Definition counters_paired (d : download_info) : bool :=
  match total_bytes d, downloaded_bytes d with
  | Some _, None => false
  | _, _ => true
  end.

(** a progress line of the subprocess *)
Definition sample_progress_line : string :=
  "[download]  42.0% of  50.62MiB at  499.80KiB/s ETA 01:43".

(** the percentage [get_progress] reads in a raw progress line *)
Definition pct_of (raw : string) : option Q :=
  match search pct_re raw with
  | Some caps => py_float (group 1 caps)
  | None => None
  end.

(** [raw_line and '[download]' in raw_line and '%' in raw_line] *)
Definition is_progress_line (raw : string) : bool :=
  negb (String.eqb raw "") && contains "[download]" raw && contains "%" raw.

(** since when a task is processing, for [get_progress] *)
Definition processing_since (d : download_info) : option Q :=
  match processing_start_time d with
  | Some s => Some s
  | None => start_time d
  end.

(** what a poll shows of a task: its status and its progress *)
Definition polled (now : Q) (w : world) (download_id : string)
  : option (string * Q) :=
  match get_progress now (downloads w) download_id with
  | Ok v => Some (pv_status v, pv_progress v)
  | Raise _ => None
  end.

(** the output of a download in two streams, video then audio *)
Definition two_streams : list string :=
  ["[download] Destination: /tmp/t1/title.f137.mp4";
   "[download] 100% of    3.00MiB in 00:00:01 at 2.10MiB/s";
   "[download] Destination: /tmp/t1/title.f140.m4a";
   "[download]   0.0% of    1.00MiB at  499.80KiB/s ETA 00:02";
   "[download] 100% of    1.00MiB in 00:00:02 at 499.80KiB/s";
   "[Merger] Merging formats into /tmp/t1/title.mp4"].

(** two records that agree on every key but [process], absent from the
    second *)
Definition same_but_process (d d' : download_info) : Prop :=
  process d' = None /\
  url d' = url d /\ format_type d' = format_type d /\
  quality d' = quality d /\ status d' = status d /\
  progress d' = progress d /\ speed d' = speed d /\ eta d' = eta d /\
  start_time d' = start_time d /\
  expected_extension d' = expected_extension d /\
  mime_type d' = mime_type d /\ error d' = error d /\
  output_file d' = output_file d /\ filename d' = filename d /\
  processing_stage d' = processing_stage d /\
  processing_start_time d' = processing_start_time d /\
  last_progress_line d' = last_progress_line d /\
  speed_bytes d' = speed_bytes d /\
  downloaded_bytes d' = downloaded_bytes d /\
  total_bytes d' = total_bytes d.

(** two worlds with the same record and the same thread for a task *)
Definition same_at (download_id : string) (w1 w2 : world) : Prop :=
  downloads w1 !! download_id = downloads w2 !! download_id /\
  threads w1 !! download_id = threads w2 !! download_id.

(** ** The vocabulary of the further properties *)

(** a [try] body that keeps a property of the record, raise or not *)
Definition keeps (I : download_info -> Prop) {A} (m : Try A) : Prop :=
  forall d, I d -> I (fst (m d)).

(** the keys no output line touches *)
Definition untouched (d d' : download_info) : Prop :=
  url d' = url d /\ format_type d' = format_type d /\
  quality d' = quality d /\ start_time d' = start_time d /\
  process d' = process d /\ error d' = error d /\
  expected_extension d' = expected_extension d /\
  mime_type d' = mime_type d /\ status d' = status d /\
  processing_stage d' = processing_stage d /\
  processing_start_time d' = processing_start_time d /\
  output_file d' = output_file d /\ filename d' = filename d.

(** every match of [r] contains the character [c] *)
Fixpoint needs (c : ascii) (r : re) : bool :=
  match r with
  | Lit c' => Ascii.eqb c c'
  | Class _ => false
  | Seq r1 r2 => needs c r1 || needs c r2
  | Opt _ => false
  | Plus r1 => needs c r1
  | Rep n r1 => negb (Nat.eqb n 0) && needs c r1
  | Group r1 => needs c r1
  end.

(** the byte counters and the numeric speed of a record *)
Definition same_counters (d d' : download_info) : Prop :=
  downloaded_bytes d' = downloaded_bytes d /\
  total_bytes d' = total_bytes d /\
  speed_bytes d' = speed_bytes d.

(** the record after the [try] of a progress line and its [except] *)
Definition after_try (line : string) (d : download_info) : download_info :=
  match parse_progress_line line d with
  | (d', Some _) => d'
  | (d', None) => except_defaults d'
  end.


(** the task an event is about *)
Definition event_task (ev : event) : string :=
  match ev with
  | EStart _ download_id _ _ _ _ => download_id
  | ERun _ download_id => download_id
  | ECancel download_id => download_id
  end.





(** * Properties *)

(** ** Unit conversion *)

(** C9. The size conversion maps a value [v] with unit KiB to [v * 1024]
    bytes, MiB to [v * 1024^2] and GiB to [v * 1024^3], whatever the case
    of the letters of the unit. *)
Theorem parse_size_units (value_str unit_ : string) (v : Q) :
  py_float value_str = Some v ->
  (same_unit unit_ "KiB" -> parse_size value_str unit_ = Some (v * 1024)) /\
  (same_unit unit_ "MiB" -> parse_size value_str unit_ = Some (v * 1024 ^ 2)) /\
  (same_unit unit_ "GiB" -> parse_size value_str unit_ = Some (v * 1024 ^ 3)).
Proof.
  intros Hv. unfold parse_size, same_unit. rewrite Hv.
  repeat split; intros ->; reflexivity.
Qed.

Lemma parse_size_units_witness :
  parse_size "50.62" "mIb" = Some ((2531 # 50) * 1024 ^ 2).
Proof.
  apply (proj1 (proj2 (parse_size_units "50.62" "mIb" (2531 # 50) eq_refl))).
  reflexivity.
Defined.

(** a unit that is none of the three leaves the value as it is *)
Example parse_size_other_unit : parse_size "7" "B" = Some 7.
Proof. reflexivity. Qed.

Example parse_size_GiB_value : parse_size "2" "GIB" = Some (2 * 1024 ^ 3).
Proof. reflexivity. Qed.

(** ** Cancellation of an unknown task *)

(** C10. For a task id that is not in the registry, [cancel_download]
    returns [False] and leaves the registry, the state file, the runner
    threads and the processes as they were. *)
Theorem cancel_unknown_id (download_id : string) (w : world) :
  downloads w !! download_id = None ->
  cancel_download download_id w = (false, w).
Proof. intros H. unfold cancel_download. rewrite H. reflexivity. Qed.

Lemma cancel_unknown_id_witness :
  cancel_download "t2"
    {| downloads := {[ "t1" := starting_record 0 sample_url "video" "best" ]};
       state_file := Missing; writable := true; signals := [];
       threads := ∅; ffmpeg_available := true; temp_dir := "/tmp" |}
  = (false,
     {| downloads := {[ "t1" := starting_record 0 sample_url "video" "best" ]};
        state_file := Missing; writable := true; signals := [];
        threads := ∅; ffmpeg_available := true; temp_dir := "/tmp" |}).
Proof. apply cancel_unknown_id. reflexivity. Defined.

(** ** The artifact *)

(** C3, as stated, fails: a known task that is not completed and a task id
    that is not in the registry get the same triple from
    [get_download_file], and the same answer from the route. *)
Lemma not_ready_same_as_unknown :
  let reg : gmap string download_info :=
    {[ "t1" := starting_record 0 sample_url "video" "best" ]} in
  is_Some (reg !! "t1") /\ reg !! "t2" = None /\
  get_download_file reg "t1" = get_download_file reg "t2" /\
  get_download_file_route reg "t1" = get_download_file_route reg "t2".
Proof. vm_compute. repeat split. eexists. reflexivity. Qed.

(** C3, amended. [get_download_file] returns the stored output path, file
    name and MIME type when the task is known and its status is
    [completed], and a triple other than the empty one only then; for a
    known task that is not completed it returns the empty triple, and it
    returns the same empty triple for an id that is not in the registry. *)
Theorem get_download_file_spec (reg : gmap string download_info)
    (download_id : string) :
  (forall d, reg !! download_id = Some d -> status d = Some "completed" ->
     get_download_file reg download_id
     = (output_file d, filename d, mime_type d)) /\
  (forall d, reg !! download_id = Some d -> status d <> Some "completed" ->
     get_download_file reg download_id = (None, None, None)) /\
  (reg !! download_id = None ->
     get_download_file reg download_id = (None, None, None)) /\
  (get_download_file reg download_id <> (None, None, None) ->
     exists d, reg !! download_id = Some d /\ status d = Some "completed").
Proof.
  unfold get_download_file.
  assert (Hstr : forall o s, is_str o s = true <-> o = Some s).
  { intros [x|] s; simpl; [rewrite String.eqb_eq|]; split; congruence. }
  repeat split.
  - intros d -> Hc. apply Hstr in Hc. rewrite Hc. reflexivity.
  - intros d -> Hc. destruct (is_str (status d) "completed") eqn:E.
    + apply Hstr in E. contradiction.
    + reflexivity.
  - intros ->. reflexivity.
  - destruct (reg !! download_id) as [d|]; [|congruence].
    destruct (is_str (status d) "completed") eqn:E; simpl; [|congruence].
    intros _. exists d. split; [reflexivity | now apply Hstr].
Qed.

Lemma get_download_file_spec_witness :
  let d := set_filename "a.mp4" (set_output_file "/tmp/t1/a.mp4"
             (set_mime_type "video/mp4" (set_status "completed"
                (starting_record 0 sample_url "video" "best")))) in
  get_download_file {[ "t1" := d ]} "t1"
  = (Some "/tmp/t1/a.mp4", Some "a.mp4", Some "video/mp4").
Proof.
  intros d.
  apply (proj1 (get_download_file_spec {[ "t1" := d ]} "t1") d);
    reflexivity.
Defined.

(** ** Starting a task *)

(** C8. [start_download] fails, with a [ValueError], if and only if the URL
    fails validation or the format type is not [video], [audio] or
    [thumbnail]; and the URL validator returns a boolean for every input,
    whatever [urlparse] and [parse_qs] do, raising included. *)
Theorem start_download_invalid_input
    (urlparse : string -> result parsed_url)
    (parse_qs : string -> result (gmap string (list string)))
    (now : Q) (download_id : string) (env : run_env)
    (url format_type quality : string) (w : world) :
  (forall u, exists b, _is_valid_youtube_url urlparse parse_qs u = Ok b) /\
  ((exists e, fst (start_download urlparse parse_qs now download_id env url
                                  format_type quality w) = Raise e)
   <-> (_is_valid_youtube_url urlparse parse_qs url = Ok false
        \/ in_list format_type ["video"; "audio"; "thumbnail"] = false)) /\
  (forall e, fst (start_download urlparse parse_qs now download_id env url
                                 format_type quality w) = Raise e ->
     exists msg, e = ValueError msg) /\
  (_is_valid_youtube_url urlparse parse_qs url = Ok true ->
   in_list format_type ["video"; "audio"; "thumbnail"] = true ->
   fst (start_download urlparse parse_qs now download_id env url
                       format_type quality w) = Ok download_id).
Proof.
  assert (Htotal : forall u, exists b,
             _is_valid_youtube_url urlparse parse_qs u = Ok b).
  { intros u. unfold _is_valid_youtube_url.
    destruct (valid_youtube_url_body urlparse parse_qs u); eauto. }
  split; [exact Htotal|].
  unfold start_download.
  destruct (Htotal url) as [b Hb]. rewrite Hb.
  destruct b, (in_list format_type ["video"; "audio"; "thumbnail"]); simpl.
  - repeat split.
    + intros [e He]. discriminate.
    + intros [H|H]; discriminate.
    + intros e He. discriminate.
  - repeat split; eauto.
    + intros e He. injection He as <-. eauto.
    + discriminate.
  - repeat split; eauto.
    + intros e He. injection He as <-. eauto.
    + discriminate.
  - repeat split; eauto.
    + intros e He. injection He as <-. eauto.
    + discriminate.
Qed.

(** a URL that [urlparse] rejects is an invalid input, not a crash *)
Example start_download_unparseable (w : world) (env : run_env) :
  fst (start_download (fun _ => Raise (ValueError "Invalid IPv6 URL"))
                      (fun _ => Ok ∅) 0 "t1" env "http://[" "video" "best" w)
  = Raise (ValueError "Invalid YouTube URL").
Proof. reflexivity. Qed.

Example valid_short_url :
  _is_valid_youtube_url
    (fun _ => Ok {| pu_netloc := "youtu.be"; pu_path := "/ABCDEFGHIJK";
                    pu_query := "" |})
    (fun _ => Ok ∅) sample_url = Ok true.
Proof. reflexivity. Qed.

(** ** Cancellation against a running thread *)

(** Whatever the exit code, the wait that follows a cancellation writes
    [failed] over [canceled]. *)
Lemma after_wait_overwrites_canceled (download_id : string) (t : thread)
    (d : download_info) (w : world) :
  status d = Some "canceled" ->
  status_of (after_wait download_id t d w) download_id = Some "failed".
Proof.
  intros H. unfold after_wait, status_of, is_str. rewrite H. simpl.
  rewrite andb_false_r. simpl. unfold store. simpl.
  rewrite lookup_insert_eq. reflexivity.
Qed.

(** C1 (the code breaks it). A video task is downloading; its subprocess
    has printed one progress line. A cancel request sets the status to
    [canceled] and signals the subprocess. The runner thread then sees the
    cancellation, leaves the loop, waits for the subprocess (exit code -15)
    and writes [failed] over [canceled]. *)
Theorem cancel_then_runner_writes_failed :
  let line := "[download]  42.0% of  50.62MiB at  499.80KiB/s ETA 01:43" in
  let w0 := run_thread 3 1 "t1" (sample_world "video" (sample_env [line; line] (-15))) in
  let '(answer, w1) := cancel_download "t1" w0 in
  let w2 := run_thread 2 2 "t1" w1 in
  status_of w0 "t1" = Some "downloading" /\
  answer = true /\ status_of w1 "t1" = Some "canceled" /\
  signals w1 = [7%nat] /\
  pc_of w2 "t1" = Some Finished /\
  status_of w2 "t1" = Some "failed".
Proof. vm_compute. repeat split. Qed.

Example cancel_then_runner_error_message :
  let w0 := run_thread 3 1 "t1" (sample_world "video" (sample_env [""; ""] (-15))) in
  let w2 := run_thread 2 2 "t1" (snd (cancel_download "t1" w0)) in
  (error <$> downloads w2 !! "t1")
  = Some (Some "Download process exited with code -15").
Proof. vm_compute. reflexivity. Qed.

(** a second cancel request answers [True] again and changes nothing *)
Example cancel_twice :
  let w0 := run_thread 3 1 "t1" (sample_world "video" (sample_env [""; ""] 0)) in
  let w1 := snd (cancel_download "t1" w0) in
  cancel_download "t1" w1 = (true, w1).
Proof. vm_compute. reflexivity. Qed.

Example cancel_then_clean_exit_writes_failed :
  let w0 := run_thread 3 1 "t1" (sample_world "audio" (sample_env [""; ""] 0)) in
  let w2 := run_thread 2 2 "t1" (snd (cancel_download "t1" w0)) in
  status_of (snd (cancel_download "t1" w0)) "t1" = Some "canceled" /\
  status_of w2 "t1" = Some "failed".
Proof. vm_compute. repeat split. Qed.

(** ** What a step leaves alone *)

Lemma downloads_save (w : world) : downloads (_save_downloads w) = downloads w.
Proof.
  unfold _save_downloads. destruct (writable w); [|reflexivity].
  destruct (dump _); reflexivity.
Qed.

Lemma threads_save (w : world) : threads (_save_downloads w) = threads w.
Proof.
  unfold _save_downloads. destruct (writable w); [|reflexivity].
  destruct (dump _); reflexivity.
Qed.

Lemma signals_save (w : world) : signals (_save_downloads w) = signals w.
Proof.
  unfold _save_downloads. destruct (writable w); [|reflexivity].
  destruct (dump _); reflexivity.
Qed.

Lemma temp_dir_save (w : world) : temp_dir (_save_downloads w) = temp_dir w.
Proof.
  unfold _save_downloads. destruct (writable w); [|reflexivity].
  destruct (dump _); reflexivity.
Qed.

Lemma status_of_store (w : world) (download_id : string) (d : download_info) :
  status_of (store download_id d w) download_id = status d.
Proof. unfold status_of, store. simpl. now rewrite lookup_insert_eq. Qed.

Lemma lookup_fail_task (w : world) (download_id : string) (e : exn)
    (d : download_info) :
  downloads w !! download_id = Some d ->
  downloads (fail_task download_id e w) !! download_id
  = Some (set_error (str_of_exn e) (set_status "failed" d)).
Proof.
  intros H. unfold fail_task. rewrite H, downloads_save. unfold store. simpl.
  apply lookup_insert_eq.
Qed.

Lemma signals_fail_task (w : world) (download_id : string) (e : exn) :
  signals (fail_task download_id e w) = signals w.
Proof.
  unfold fail_task. destruct (downloads w !! download_id); [|reflexivity].
  now rewrite signals_save.
Qed.

(** the thumbnail branch fails on a response that is not 200, on a failed
    request and on a failed write *)
Lemma thumbnail_branch_status (output_path : string) (env : run_env)
    (d d' : download_info) :
  thumbnail_branch output_path env d = Ok d' ->
  env_http env = Ok 200%Z /\ env_write env = None /\
  status d' = Some "completed" /\ progress d' = Some 100 /\
  mime_type d' = Some "image/jpeg" /\ process d' = process d /\
  last_progress_line d' = last_progress_line d.
Proof.
  unfold thumbnail_branch.
  destruct (vi_thumbnails (env_video_info env)) as [[|[u|] rest]|]; try discriminate.
  destruct (env_http env) as [code|]; try discriminate.
  destruct (code =? 200)%Z eqn:E; simpl; try discriminate.
  apply Z.eqb_eq in E. subst code.
  destruct (vi_title (env_video_info env)); try discriminate.
  destruct (env_write env); try discriminate.
  intros [= <-]. repeat split.
Qed.

Lemma thumbnail_branch_success (output_path : string) (env : run_env)
    (d : download_info) (u title : string) (rest : list (option string)) :
  vi_thumbnails (env_video_info env) = Some (Some u :: rest) ->
  vi_title (env_video_info env) = Some title ->
  env_http env = Ok 200%Z -> env_write env = None ->
  exists d', thumbnail_branch output_path env d = Ok d'.
Proof.
  intros H1 H2 H3 H4. unfold thumbnail_branch. rewrite H1, H3, H2, H4.
  simpl. eauto.
Qed.

(** ** The thumbnail path *)

(** C7, as stated, fails: the runner sets every task to [downloading]
    before it looks at the format type, a thumbnail task included. *)
Lemma thumbnail_task_is_set_to_downloading :
  let w0 := sample_world "thumbnail" (sample_env [] 0) in
  let w1 := thread_step 1 "t1" w0 in
  (th_format_type <$> threads w0 !! "t1") = Some "thumbnail" /\
  status_of w0 "t1" = Some "starting" /\
  status_of w1 "t1" = Some "downloading".
Proof. vm_compute. repeat split. Qed.

(** C7, amended. The first step of the runner sets a thumbnail task to
    [downloading], as it does for every task. The next step ends the
    thread without launching a subprocess and without reading a progress
    line: the task goes from [downloading] directly to [completed], with
    progress 100, when a thumbnail is listed, the response is 200 and the
    file is written, and to [failed] on a response other than 200, on a
    failed request and on a write error. *)
Theorem thumbnail_lifecycle (now1 now2 : Q) (download_id : string)
    (t : thread) (d : download_info) (w : world) :
  threads w !! download_id = Some t ->
  th_pc t = AtStart ->
  th_format_type t = "thumbnail" ->
  downloads w !! download_id = Some d ->
  let w1 := thread_step now1 download_id w in
  let w2 := thread_step now2 download_id w1 in
  status_of w1 download_id = Some "downloading" /\
  pc_of w1 download_id = Some Launching /\
  pc_of w2 download_id = Some Finished /\
  signals w2 = signals w /\
  (exists d2, downloads w2 !! download_id = Some d2 /\
     process d2 = process d /\
     last_progress_line d2 = last_progress_line d /\
     (status d2 = Some "completed" /\ progress d2 = Some 100
      \/ status d2 = Some "failed" /\ progress d2 = progress d)) /\
  (forall u rest title,
     vi_thumbnails (env_video_info (th_env t)) = Some (Some u :: rest) ->
     vi_title (env_video_info (th_env t)) = Some title ->
     env_http (th_env t) = Ok 200%Z -> env_write (th_env t) = None ->
     status_of w2 download_id = Some "completed") /\
  (forall code, env_http (th_env t) = Ok code -> code <> 200%Z ->
     status_of w2 download_id = Some "failed") /\
  (forall e, env_http (th_env t) = Raise e ->
     status_of w2 download_id = Some "failed") /\
  (forall e, env_write (th_env t) = Some e ->
     status_of w2 download_id = Some "failed").
Proof.
  intros Ht Hpc Hfmt Hd w1 w2.
  assert (Hw1 : w1 = set_pc download_id t Launching
                       (store download_id (set_status "downloading" d) w)).
  { unfold w1, thread_step. now rewrite Ht, Hd, Hpc. }
  assert (Ht1 : threads w1 !! download_id
                = Some {| th_pc := Launching; th_format_type := th_format_type t;
                          th_env := th_env t |}).
  { rewrite Hw1. simpl. apply lookup_insert_eq. }
  assert (Hd1 : downloads w1 !! download_id = Some (set_status "downloading" d)).
  { rewrite Hw1. simpl. apply lookup_insert_eq. }
  set (branch := thumbnail_branch (path_join (temp_dir w1) download_id)
                                  (th_env t) (set_status "downloading" d)).
  assert (Hw2 : w2 = match branch with
                     | Ok d' =>
                         set_pc download_id
                           {| th_pc := Launching;
                              th_format_type := th_format_type t;
                              th_env := th_env t |} Finished
                           (_save_downloads (store download_id d' w1))
                     | Raise e =>
                         set_pc download_id
                           {| th_pc := Launching;
                              th_format_type := th_format_type t;
                              th_env := th_env t |} Finished
                           (fail_task download_id e w1)
                     end).
  { unfold w2, thread_step. rewrite Ht1, Hd1. simpl.
    unfold launch. simpl. rewrite Hfmt. reflexivity. }
  assert (Hsig1 : signals w1 = signals w) by now rewrite Hw1.
  assert (Hst2 : forall d', downloads w2 !! download_id = Some d' ->
                            status_of w2 download_id = status d').
  { intros d' H. unfold status_of. now rewrite H. }
  assert (Hrec : match branch with
                 | Ok d' => downloads w2 !! download_id = Some d'
                 | Raise e =>
                     downloads w2 !! download_id
                     = Some (set_error (str_of_exn e)
                               (set_status "failed" (set_status "downloading" d)))
                 end).
  { rewrite Hw2. destruct branch as [d'|e]; simpl.
    - rewrite downloads_save. simpl. apply lookup_insert_eq.
    - now apply lookup_fail_task. }
  split; [unfold status_of; now rewrite Hd1|].
  split; [unfold pc_of; now rewrite Ht1|].
  split.
  { unfold pc_of. rewrite Hw2.
    destruct branch; simpl; now rewrite lookup_insert_eq. }
  split.
  { rewrite Hw2. destruct branch; simpl.
    - now rewrite signals_save.
    - now rewrite signals_fail_task. }
  split.
  { destruct branch as [d'|e] eqn:Hb.
    - exists d'. split; [exact Hrec|].
      apply thumbnail_branch_status in Hb.
      destruct Hb as (_ & _ & Hs & Hp & _ & Hproc & Hline).
      repeat split; [exact Hproc | exact Hline | left; now split].
    - eexists. split; [exact Hrec|]. repeat split. right. now split. }
  split.
  { intros u rest title H1 H2 H3 H4.
    destruct (thumbnail_branch_success (path_join (temp_dir w1) download_id)
                (th_env t) (set_status "downloading" d) u title rest H1 H2 H3 H4)
      as [d' Hd'].
    fold branch in Hd'. rewrite Hd' in Hrec. rewrite (Hst2 _ Hrec).
    now apply thumbnail_branch_status in Hd'. }
  assert (Hfail : forall e, branch = Raise e ->
                            status_of w2 download_id = Some "failed").
  { intros e Hb. rewrite Hb in Hrec. now rewrite (Hst2 _ Hrec). }
  assert (Hok : forall d', branch = Ok d' ->
                  env_http (th_env t) = Ok 200%Z /\ env_write (th_env t) = None).
  { intros d' Hb. apply thumbnail_branch_status in Hb. tauto. }
  repeat split.
  - intros code Hc Hne. destruct branch as [d'|e] eqn:Hb; [|now apply (Hfail e)].
    destruct (Hok d' eq_refl) as [H _]. congruence.
  - intros e0 Hc. destruct branch as [d'|e] eqn:Hb; [|now apply (Hfail e)].
    destruct (Hok d' eq_refl) as [H _]. congruence.
  - intros e0 Hc. destruct branch as [d'|e] eqn:Hb; [|now apply (Hfail e)].
    destruct (Hok d' eq_refl) as [_ H]. congruence.
Qed.

Lemma thumbnail_lifecycle_witness :
  let w := sample_world "thumbnail" (thumbnail_env 404) in
  status_of (thread_step 1 "t1" w) "t1" = Some "downloading" /\
  status_of (thread_step 2 "t1" (thread_step 1 "t1" w)) "t1" = Some "failed".
Proof.
  intros w.
  pose proof (thumbnail_lifecycle 1 2 "t1"
                {| th_pc := AtStart; th_format_type := "thumbnail";
                   th_env := thumbnail_env 404 |}
                (starting_record 0 sample_url "thumbnail" "best") w
                eq_refl eq_refl eq_refl eq_refl) as H.
  split.
  - exact (proj1 H).
  - refine (proj1 (proj2 (proj2 (proj2 (proj2 (proj2 (proj2 H)))))) 404%Z eq_refl _).
    discriminate.
Defined.

Example thumbnail_success :
  let w := run_thread 2 1 "t1" (sample_world "thumbnail" (thumbnail_env 200)) in
  status_of w "t1" = Some "completed" /\
  (filename <$> downloads w !! "t1") = Some (Some "A title_thumbnail.jpg") /\
  (output_file <$> downloads w !! "t1")
  = Some (Some "/tmp/t1/A title_thumbnail.jpg").
Proof. vm_compute. repeat split. Qed.

(** ** Sticky fields *)

Lemma split_go_cons (sep : string) (k : nat) (acc s : string) :
  exists x l, split_go sep k acc s = x :: l.
Proof.
  revert k acc. induction s as [|c s IH]; intros k acc; cbn [split_go]; [eauto|].
  destruct k; [|apply IH].
  destruct (String.prefix sep (String c s)); [eauto | apply IH].
Qed.

(** a string that contains the separator splits in two pieces at least *)
Lemma split_second_piece (sep s : string) :
  sep <> "" -> contains sep s = true ->
  exists p, second_piece (split sep s) = Some p.
Proof.
  intros Hsep. unfold split. generalize "" as acc.
  induction s as [|c s IH]; intros acc Hc.
  - destruct sep; [congruence | discriminate].
  - cbn [contains] in Hc. cbn [split_go].
    destruct (String.prefix sep (String c s)) eqn:Hp.
    + destruct (split_go_cons sep (String.length sep - 1) "" s) as (x & l & ->).
      simpl. eauto.
    + simpl in Hc. now apply IH.
Qed.

(** C6, as stated, fails: a merge marker carries no percentage, rate or
    ETA, and the runner overwrites the recorded ETA on it. *)
Lemma merger_line_overwrites_eta :
  let prior := set_eta "00:10" (set_speed "1MiB/s"
                 (set_status "downloading" empty_info)) in
  let line := "[Merger] Merging formats into foo.mp4" in
  contains "%" line = false /\ contains "ETA" line = false /\
  contains "/s" line = false /\
  eta prior = Some "00:10" /\
  eta (process_line 5 line prior) = Some "Processing...".
Proof. vm_compute. repeat split. Qed.

(** C6, amended. A line that carries no percentage marker (it lacks
    ["[download]"] or ["%"]) and no merge or convert marker leaves the
    recorded speed and ETA as they were; a line with such a marker and no
    percentage leaves the speed and sets the ETA to ["Processing..."]. The
    line ["Destination: foo.mp4"] leaves speed and ETA unchanged, whatever
    they were, and sets the output file path to ["foo.mp4"] and the file
    name to its base name. *)
Theorem sticky_speed_and_eta (now : Q) (line : string) (d : download_info) :
  contains "[download]" line && contains "%" line = false ->
  (stage_marker line = false ->
     speed (process_line now line d) = speed d /\
     eta (process_line now line d) = eta d) /\
  (stage_marker line = true ->
     speed (process_line now line d) = speed d /\
     eta (process_line now line d) = Some "Processing...") /\
  (contains "Destination:" line = true ->
     exists p, second_piece (split "Destination:" line) = Some p /\
       output_file (process_line now line d) = Some (strip p) /\
       filename (process_line now line d) = Some (basename (strip p))) /\
  speed (process_line now "Destination: foo.mp4" d) = speed d /\
  eta (process_line now "Destination: foo.mp4" d) = eta d /\
  output_file (process_line now "Destination: foo.mp4" d) = Some "foo.mp4" /\
  filename (process_line now "Destination: foo.mp4" d) = Some "foo.mp4".
Proof.
  intros Hpct.
  assert (Hdest : forall d0, speed (record_destination line d0) = speed d0 /\
                             eta (record_destination line d0) = eta d0).
  { intros d0. unfold record_destination.
    destruct (second_piece _); split; reflexivity. }
  assert (Henter : speed (enter_processing now line d) = speed d /\
                   eta (enter_processing now line d) = Some "Processing...").
  { unfold enter_processing.
    destruct (Qlt_b 90 _); simpl; destruct (processing_start_time d);
      split; reflexivity. }
  split; [|split; [|split]].
  - intros Hm. unfold process_line. rewrite Hm, Hpct.
    destruct (contains "Destination:" line); [apply Hdest | split; reflexivity].
  - intros Hm. unfold process_line. rewrite Hm, Hpct.
    destruct (contains "Destination:" line).
    + destruct (Hdest (enter_processing now line d)) as [-> ->]. exact Henter.
    + exact Henter.
  - intros Hc. unfold process_line. rewrite Hpct, Hc.
    destruct (split_second_piece "Destination:" line) as [p Hp];
      [discriminate | exact Hc |].
    exists p. unfold record_destination. rewrite Hp. repeat split.
  - repeat split.
Qed.

Lemma sticky_speed_and_eta_witness :
  let prior := set_eta "00:10" (set_speed "1MiB/s"
                 (set_status "downloading" empty_info)) in
  let after := process_line 3 "Destination: foo.mp4" prior in
  speed after = Some "1MiB/s" /\ eta after = Some "00:10" /\
  output_file after = Some "foo.mp4" /\ filename after = Some "foo.mp4".
Proof.
  intros prior after.
  pose proof (sticky_speed_and_eta 3 "Destination: foo.mp4" prior eq_refl) as H.
  destruct H as (_ & _ & _ & Hs & He & Ho & Hf).
  repeat split; assumption.
Defined.

(** ** A progress line *)

(** C5. From any known prior state, the line
    ["[download]  42.0% of  50.62MiB at  499.80KiB/s ETA 01:43"] leaves the
    record with progress 42.0, speed ["499.80KiB/s"] and ETA ["01:43"],
    and, while the task is downloading, [get_progress] reports these three
    values. *)
Theorem progress_line_42 (now now' : Q) (d : download_info) :
  counters_paired d = true ->
  let d' := process_line now sample_progress_line d in
  progress d' = Some 42 /\
  speed d' = Some "499.80KiB/s" /\
  eta d' = Some "01:43" /\
  status d' = status d /\
  (status d = Some "downloading" ->
   pv_status (view_of now' d') = "downloading" /\
   pv_progress (view_of now' d') = 42 /\
   pv_speed (view_of now' d') = "499.80KiB/s" /\
   pv_eta (view_of now' d') = "01:43").
Proof.
  intros H d'.
  destruct d as [f1 f2 f3 f4 f5 f6 f7 f8 f9 f10 f11 f12 f13 f14 f15 f16 f17
                 f18 db tb].
  unfold counters_paired in H. simpl in H.
  assert (Hfields : progress d' = Some 42 /\ speed d' = Some "499.80KiB/s" /\
                    eta d' = Some "01:43" /\ status d' = f4 /\
                    last_progress_line d' = Some sample_progress_line).
  { unfold d', sample_progress_line, process_line.
    destruct f18;
      (destruct tb as [tb|]; [destruct db as [db|]; [|discriminate]|]);
      cbv -[Qlt_b Qdiv Qmult]; try destruct (Qlt_b 0 tb); cbv; repeat split. }
  destruct Hfields as (Hp & Hs & He & Hst & Hl).
  split; [exact Hp|]. split; [exact Hs|]. split; [exact He|].
  split; [exact Hst|].
  intros Hd. cbn [status] in Hd. rewrite Hd in Hst. unfold view_of.
  rewrite Hp, Hs, He, Hst, Hl. repeat split.
Qed.

Lemma progress_line_42_witness :
  let d' := process_line 1 sample_progress_line
              (set_status "downloading" (starting_record 0 sample_url "video" "best")) in
  progress d' = Some 42 /\ speed d' = Some "499.80KiB/s" /\
  eta d' = Some "01:43".
Proof.
  intros d'.
  pose proof (progress_line_42 1 2
                (set_status "downloading"
                   (starting_record 0 sample_url "video" "best")) eq_refl) as H.
  destruct H as (Hp & Hs & He & _). repeat split; assumption.
Defined.

(** the same line as [readline] returns it, with its newline, and read
    through [get_progress] *)
Example progress_line_42_polled :
  let nl := String (ascii_of_nat 10) "" in
  let w := run_thread 3 1 "t1"
             (sample_world "video" (sample_env [sample_progress_line ++ nl] 0)) in
  get_progress 2 (downloads w) "t1"
  = Ok {| pv_status := "downloading"; pv_progress := 42;
          pv_speed := "499.80KiB/s"; pv_eta := "01:43";
          pv_format_type := "video"; pv_elapsed := 2 |}.
Proof. vm_compute. reflexivity. Qed.

(** without the pairing of the counters the parser stops at a
    [TypeError] and the line changes nothing but the ETA *)
Example progress_line_unpaired_counters :
  let d := set_total_bytes 100 (set_progress 7 (set_status "downloading" empty_info)) in
  progress (process_line 1 sample_progress_line d) = Some 7.
Proof. vm_compute. reflexivity. Qed.

(** ** Reported progress *)

Lemma Qlt_b_true (a b : Q) : Qlt_b a b = true <-> a < b.
Proof.
  unfold Qlt_b. rewrite negb_true_iff. split.
  - intros H. apply Qnot_le_lt. intros Hle. apply Qle_bool_iff in Hle.
    congruence.
  - intros H. destruct (Qle_bool b a) eqn:E; [|reflexivity].
    apply Qle_bool_iff in E. exfalso. apply (Qlt_not_le _ _ H E).
Qed.

Lemma Qlt_b_false (a b : Q) : Qlt_b a b = false <-> b <= a.
Proof. unfold Qlt_b. rewrite negb_false_iff. apply Qle_bool_iff. Qed.

Lemma reparse_progress (st raw : string) (p : Q) (cur : Q * string * string)
    (x : Q) (e s : string) :
  is_progress_line raw = true -> pct_of raw = Some p ->
  reparse_raw_line st raw cur = (x, e, s) ->
  x = if negb (String.eqb st "processing") && Qlt_b 90 p then 90 else Qmin 90 p.
Proof.
  unfold is_progress_line, pct_of, reparse_raw_line. intros Hl Hp.
  destruct cur as [[pr e0] s0]. rewrite Hl.
  destruct (search pct_re raw); [|discriminate]. rewrite Hp.
  intros [= <- _ _]. reflexivity.
Qed.

(** while downloading: the percentage of the last line, between 0.1 and 90 *)
Lemma view_downloading (now : Q) (d : download_info) (raw : string) (p : Q) :
  status d = Some "downloading" -> last_progress_line d = Some raw ->
  is_progress_line raw = true -> pct_of raw = Some p ->
  pv_progress (view_of now d) == Qmax (1 # 10) (Qmin 90 p).
Proof.
  intros Hs Hl Hr Hp. unfold view_of. rewrite Hs, Hl. cbn [default_to].
  destruct (reparse_raw_line _ _ _) as [[x e] s] eqn:E.
  apply (reparse_progress _ _ p) in E; [|assumption..].
  change (String.eqb "downloading" "processing") with false in *.
  change (String.eqb "downloading" "downloading") with true.
  cbn [negb andb] in *. cbn [pv_progress].
  assert (Hx : x == Qmin 90 p).
  { subst x. destruct (Qlt_b 90 p) eqn:E; [|reflexivity].
    apply Qlt_b_true in E.
    rewrite Q.min_l; [reflexivity | now apply Qlt_le_weak]. }
  destruct (Qlt_b x (1 # 10)) eqn:E2; cbn [pv_progress].
  - apply Qlt_b_true in E2. rewrite Q.max_l; [reflexivity|].
    rewrite <- Hx. now apply Qlt_le_weak.
  - apply Qlt_b_false in E2. rewrite Q.max_r; [exact Hx|]. now rewrite <- Hx.
Qed.

(** while processing: 90 plus nine tenths of a point per second, up to 9 *)
Lemma view_processing (now : Q) (d : download_info) :
  status d = Some "processing" ->
  pv_progress (view_of now d)
  = 90 + Qmin 9 ((now - default_to (default_to now (start_time d))
                                   (processing_start_time d)) / 10 * 9).
Proof.
  intros Hs. unfold view_of. rewrite Hs. cbn [default_to].
  destruct (reparse_raw_line _ _ _) as [[x e] s].
  change (String.eqb "processing" "downloading") with false.
  change (String.eqb "processing" "processing") with true.
  reflexivity.
Qed.

Lemma processing_bounds (a1 a2 : Q) :
  0 <= a1 -> a1 <= a2 ->
  90 <= 90 + Qmin 9 (a1 / 10 * 9) /\
  90 + Qmin 9 (a1 / 10 * 9) <= 90 + Qmin 9 (a2 / 10 * 9) /\
  90 + Qmin 9 (a2 / 10 * 9) <= 99.
Proof.
  intros H0 H12. unfold Qdiv. change (/ 10) with (1 # 10).
  split; [|split].
  - destruct (Q.min_spec 9 (a1 * (1 # 10) * 9)) as [[_ ->]|[_ ->]]; lra.
  - apply Qplus_le_r. apply Q.min_le_compat_l. lra.
  - destruct (Q.min_spec 9 (a2 * (1 # 10) * 9)) as [[H ->]|[H ->]]; lra.
Qed.

Lemma post_process_completed (env : run_env) (d : download_info) :
  status (post_process env d) = Some "completed" /\
  progress (post_process env d) = Some 100.
Proof. unfold post_process. destruct (locate_output env d) as [d' []]; split; reflexivity. Qed.

(** C2, as stated, fails. The subprocess downloads the video stream and
    then the audio stream, each from 0% to 100%: while the task is
    downloading, polling after the first stream shows 90 and after the
    first line of the second stream 0.1. When the task has completed,
    polling shows 90, the capped percentage of the last progress line, not
    the 100 that the runner stored. *)
Lemma reported_progress_decreases :
  let w := sample_world "video" (sample_env two_streams 0) in
  polled 2 (run_thread 4 1 "t1" w) "t1" = Some ("downloading", 90) /\
  polled 2 (run_thread 6 1 "t1" w) "t1" = Some ("downloading", 1 # 10) /\
  pc_of (run_thread 11 1 "t1" w) "t1" = Some Finished /\
  polled 2 (run_thread 11 1 "t1" w) "t1" = Some ("completed", 90) /\
  (progress <$> downloads (run_thread 11 1 "t1" w) !! "t1") = Some (Some 100).
Proof. vm_compute. repeat split. Qed.

(** C2, amended. While a task is downloading and its last progress line
    carries the percentage [p], [get_progress] reports [max(0.1, min(90,
    p))]: never more than 90, and not less than an earlier report when [p]
    is not less than the earlier percentage. While it is processing,
    [get_progress] reports 90 plus 0.9 per second since the processing
    began, up to 9: a value between 90 and 99 that does not decrease as
    time passes. The runner stores progress 100 whenever it writes
    [completed], and [get_progress] reports 100 for a completed task that
    recorded no progress line. *)
Theorem reported_progress (now now1 now2 : Q) (d d1 d2 : download_info) :
  (forall raw p,
     status d = Some "downloading" -> last_progress_line d = Some raw ->
     is_progress_line raw = true -> pct_of raw = Some p ->
     pv_progress (view_of now d) == Qmax (1 # 10) (Qmin 90 p) /\
     pv_progress (view_of now d) <= 90) /\
  (forall raw1 raw2 p1 p2,
     status d1 = Some "downloading" -> last_progress_line d1 = Some raw1 ->
     is_progress_line raw1 = true -> pct_of raw1 = Some p1 ->
     status d2 = Some "downloading" -> last_progress_line d2 = Some raw2 ->
     is_progress_line raw2 = true -> pct_of raw2 = Some p2 ->
     p1 <= p2 ->
     pv_progress (view_of now1 d1) <= pv_progress (view_of now2 d2)) /\
  (status d = Some "processing" ->
   (forall s, processing_since d = Some s -> s <= now1) -> now1 <= now2 ->
   90 <= pv_progress (view_of now1 d) /\
   pv_progress (view_of now1 d) <= pv_progress (view_of now2 d) /\
   pv_progress (view_of now2 d) <= 99) /\
  (forall env,
     status (post_process env d) = Some "completed" /\
     progress (post_process env d) = Some 100) /\
  (forall output_path env d',
     thumbnail_branch output_path env d = Ok d' ->
     status d' = Some "completed" /\ progress d' = Some 100) /\
  (status d = Some "completed" -> progress d = Some 100 ->
   last_progress_line d = None -> pv_progress (view_of now d) = 100).
Proof.
  split; [|split; [|split; [|split; [|split]]]].
  - intros raw p Hs Hl Hr Hp.
    pose proof (view_downloading now d raw p Hs Hl Hr Hp) as H.
    split; [exact H|]. rewrite H.
    apply Q.max_lub; [lra | apply Q.le_min_l].
  - intros raw1 raw2 p1 p2 Hs1 Hl1 Hr1 Hp1 Hs2 Hl2 Hr2 Hp2 Hle.
    rewrite (view_downloading now1 d1 raw1 p1 Hs1 Hl1 Hr1 Hp1).
    rewrite (view_downloading now2 d2 raw2 p2 Hs2 Hl2 Hr2 Hp2).
    apply Q.max_le_compat_l. now apply Q.min_le_compat_l.
  - intros Hs Hsince Hle. rewrite !view_processing by assumption.
    unfold processing_since in Hsince.
    destruct (processing_start_time d) as [s|]; cbn [default_to].
    + apply processing_bounds; [|lra].
      specialize (Hsince s eq_refl). lra.
    + destruct (start_time d) as [s|]; cbn [default_to].
      * apply processing_bounds; [|lra].
        specialize (Hsince s eq_refl). lra.
      * apply processing_bounds; lra.
  - intros env. apply post_process_completed.
  - intros output_path env d' H. apply thumbnail_branch_status in H. tauto.
  - intros Hs Hp Hl. unfold view_of. rewrite Hs, Hp, Hl. reflexivity.
Qed.

Lemma reported_progress_witness :
  let raw := "[download]  95.0% of  50.62MiB at  499.80KiB/s ETA 00:05" in
  let d := set_last_progress_line raw
             (set_status "downloading"
                (starting_record 0 sample_url "video" "best")) in
  pv_progress (view_of 3 d) <= 90.
Proof.
  intros raw d.
  exact (proj2 (proj1 (reported_progress 3 3 3 d d d) raw 95
                      eq_refl eq_refl eq_refl eq_refl)).
Defined.

Example processing_report :
  let d := set_processing_start_time 10
             (set_status "processing"
                (starting_record 0 sample_url "video" "best")) in
  List.map (fun now => Qred (pv_progress (view_of now d))) [10; 15; 20; 60]
  = [90; 189 # 2; 99; 99].
Proof. vm_compute. reflexivity. Qed.

(** ** Persistence *)

Lemma assoc_member_ne {A} (k k' : string) (enc : A -> jval) (o : option A)
    (rest : jobject) :
  k <> k' -> assoc k (member k' enc o ++ rest)%list = assoc k rest.
Proof.
  intros Hne. destruct o as [v|]; [|reflexivity]. simpl.
  destruct (String.eqb_spec k k'); [contradiction | reflexivity].
Qed.

Lemma assoc_member_eq {A} (k : string) (enc : A -> jval) (o : option A)
    (rest : jobject) :
  assoc k (member k enc o ++ rest)%list
  = match o with Some v => Some (enc v) | None => assoc k rest end.
Proof.
  destruct o as [v|]; [|reflexivity]. simpl. now rewrite String.eqb_refl.
Qed.

Lemma member_known {A} (k : string) (enc : A -> jval) (o : option A) :
  known k = true ->
  List.forallb (fun kv => known (fst kv)) (member k enc o) = true.
Proof. intros H. destruct o; simpl; [now rewrite H | reflexivity]. Qed.

Lemma members_known (d : download_info) :
  List.forallb (fun kv => known (fst kv)) (members d) = true.
Proof.
  unfold members. repeat rewrite forallb_app.
  repeat (rewrite member_known by reflexivity). reflexivity.
Qed.

(** the member of a key, found in the members of a record *)
Ltac find_member :=
  unfold members;
  rewrite <- (app_nil_r (member "total_bytes" JNum _));
  repeat (rewrite assoc_member_ne by discriminate);
  rewrite assoc_member_eq;
  match goal with
  | |- context [match ?o with Some _ => _ | None => _ end] =>
      destruct o;
      [ reflexivity
      | repeat (rewrite assoc_member_ne by discriminate); reflexivity ]
  end.

Lemma str_members (d : download_info) :
  str_member "url" (members d) = Some (url d) /\
  str_member "format_type" (members d) = Some (format_type d) /\
  str_member "quality" (members d) = Some (quality d) /\
  str_member "status" (members d) = Some (status d) /\
  str_member "speed" (members d) = Some (speed d) /\
  str_member "eta" (members d) = Some (eta d) /\
  str_member "expected_extension" (members d) = Some (expected_extension d) /\
  str_member "mime_type" (members d) = Some (mime_type d) /\
  str_member "error" (members d) = Some (error d) /\
  str_member "output_file" (members d) = Some (output_file d) /\
  str_member "filename" (members d) = Some (filename d) /\
  str_member "processing_stage" (members d) = Some (processing_stage d) /\
  str_member "last_progress_line" (members d) = Some (last_progress_line d).
Proof. repeat split; unfold str_member; find_member. Qed.

Lemma num_members (d : download_info) :
  num_member "progress" (members d) = Some (progress d) /\
  num_member "start_time" (members d) = Some (start_time d) /\
  num_member "processing_start_time" (members d)
  = Some (processing_start_time d) /\
  num_member "speed_bytes" (members d) = Some (speed_bytes d) /\
  num_member "downloaded_bytes" (members d) = Some (downloaded_bytes d) /\
  num_member "total_bytes" (members d) = Some (total_bytes d).
Proof. repeat split; unfold num_member; find_member. Qed.

(** a record written without its process handle reads back as it was *)
Lemma info_of_json_members (d : download_info) :
  info_of_json (members d) = Some (del_process d).
Proof.
  unfold info_of_json. rewrite members_known. cbn [negb].
  destruct (str_members d)
    as (-> & -> & -> & -> & -> & -> & -> & -> & -> & -> & -> & -> & ->).
  destruct (num_members d) as (-> & -> & -> & -> & -> & ->).
  reflexivity.
Qed.

Lemma dump_copy (reg : gmap string download_info) :
  dump (del_process <$> reg) = Some (members <$> reg).
Proof.
  unfold dump. destruct (decide _) as [_|Hn].
  - f_equal. apply map_eq. intros i.
    rewrite lookup_omap, !lookup_fmap. now destruct (reg !! i).
  - exfalso. apply Hn. intros i x. rewrite lookup_fmap.
    destruct (reg !! i); intros [= <-]. eexists. reflexivity.
Qed.

Lemma load_members (reg : gmap string download_info) :
  load (members <$> reg) = Some (del_process <$> reg).
Proof.
  unfold load. destruct (decide _) as [_|Hn].
  - f_equal. apply map_eq. intros i.
    rewrite lookup_omap, !lookup_fmap.
    destruct (reg !! i); [apply info_of_json_members | reflexivity].
  - exfalso. apply Hn. intros i x. rewrite lookup_fmap.
    destruct (reg !! i); intros [= <-]. rewrite info_of_json_members. eauto.
Qed.

Lemma save_writable (w : world) :
  writable w = true ->
  state_file (_save_downloads w) = Snapshot (members <$> downloads w).
Proof. intros H. unfold _save_downloads. now rewrite H, dump_copy. Qed.

Lemma del_process_same (d : download_info) : same_but_process d (del_process d).
Proof. repeat split. Qed.

(** ** What a step does to the other tasks *)

Create HintDb frame.

Lemma same_at_refl (i : string) (w : world) : same_at i w w.
Proof. split; reflexivity. Qed.

Lemma same_at_set_pc (i j : string) (t : thread) (p : pc) (w1 w2 : world) :
  i <> j -> same_at i w1 w2 -> same_at i (set_pc j t p w1) w2.
Proof.
  intros Hne [H1 H2]. split; simpl; [exact H1|].
  now rewrite lookup_insert_ne.
Qed.

Lemma same_at_store (i j : string) (d : download_info) (w1 w2 : world) :
  i <> j -> same_at i w1 w2 -> same_at i (store j d w1) w2.
Proof.
  intros Hne [H1 H2]. split; simpl; [|exact H2].
  now rewrite lookup_insert_ne.
Qed.

Lemma same_at_save (i : string) (w1 w2 : world) :
  same_at i w1 w2 -> same_at i (_save_downloads w1) w2.
Proof. intros [H1 H2]. split; now rewrite ?downloads_save, ?threads_save. Qed.

Lemma same_at_signals (i : string) (l : list proc) (w1 w2 : world) :
  same_at i w1 w2 -> same_at i (with_signals l w1) w2.
Proof. intros H. exact H. Qed.

Lemma same_at_threads (i j : string) (t : thread) (w1 w2 : world) :
  i <> j -> same_at i w1 w2 ->
  same_at i (with_threads (<[j := t]> (threads w1)) w1) w2.
Proof.
  intros Hne [H1 H2]. split; simpl; [exact H1|].
  now rewrite lookup_insert_ne.
Qed.

Lemma same_at_fail_task (i j : string) (e : exn) (w1 w2 : world) :
  i <> j -> same_at i w1 w2 -> same_at i (fail_task j e w1) w2.
Proof.
  intros Hne H. unfold fail_task. destruct (downloads w1 !! j); [|exact H].
  now apply same_at_save, same_at_store.
Qed.

#[local] Hint Resolve same_at_refl same_at_set_pc same_at_store same_at_save
  same_at_signals same_at_threads same_at_fail_task : frame.

(** a step of the thread of one task leaves the other tasks alone *)
Lemma thread_step_frame (now : Q) (i j : string) (w : world) :
  i <> j -> same_at i (thread_step now j w) w.
Proof.
  intros Hne. unfold thread_step, launch, spawn, read_line, after_wait.
  repeat case_match; eauto 10 with frame.
Qed.

Lemma cancel_frame (i j : string) (w : world) :
  i <> j -> same_at i (snd (cancel_download j w)) w.
Proof.
  intros Hne. unfold cancel_download.
  repeat case_match; simpl; eauto 10 with frame.
Qed.

Lemma start_download_frame
    (urlparse : string -> result parsed_url)
    (parse_qs : string -> result (gmap string (list string)))
    (now : Q) (i j : string) (env : run_env) (u f q : string) (w : world) :
  i <> j ->
  same_at i (snd (start_download urlparse parse_qs now j env u f q w)) w.
Proof.
  intros Hne. unfold start_download.
  repeat case_match; simpl; eauto 10 with frame.
Qed.

(** a cancel request on a task without a runner thread: the record stays,
    or its status becomes [canceled] *)
Lemma cancel_same_task (i : string) (w : world) (d : download_info) :
  downloads w !! i = Some d ->
  threads (snd (cancel_download i w)) = threads w /\
  (downloads (snd (cancel_download i w)) !! i = Some d
   \/ is_terminal d = false
      /\ downloads (snd (cancel_download i w)) !! i
         = Some (set_status "canceled" d)).
Proof.
  intros Hd. unfold cancel_download. rewrite Hd.
  destruct (is_terminal d) eqn:Ht; simpl; [split; [reflexivity | now left]|].
  rewrite threads_save, downloads_save.
  destruct (process d); simpl; (split; [reflexivity|]);
    right; (split; [reflexivity | apply lookup_insert_eq]).
Qed.

(** Along any run of a downloader, a task that has a record and no runner
    thread never gets one, and its record changes by a cancel request
    only. *)
Lemma no_thread_invariant
    (urlparse : string -> result parsed_url)
    (parse_qs : string -> result (gmap string (list string)))
    (w0 w' : world) (i : string) (d0 : download_info) :
  reaches urlparse parse_qs w0 w' ->
  downloads w0 !! i = Some d0 -> threads w0 !! i = None ->
  threads w' !! i = None /\
  (downloads w' !! i = Some d0
   \/ is_terminal d0 = false
      /\ downloads w' !! i = Some (set_status "canceled" d0)).
Proof.
  intros Hr Hd Ht. induction Hr as [w|w w' ev Hr IH Hadm].
  - split; [exact Ht | now left].
  - destruct (IH Hd Ht) as [IHt IHd]. clear IH.
    assert (Hsome : is_Some (downloads w' !! i)).
    { destruct IHd as [->|[_ ->]]; eauto. }
    destruct ev as [now j env u f q|now j|j]; simpl in *.
    + assert (Hne : i <> j).
      { intros ->. rewrite Hadm in Hsome. now destruct Hsome. }
      destruct (start_download_frame urlparse parse_qs now i j env u f q w' Hne)
        as [-> ->].
      now split.
    + destruct (decide (i = j)) as [<-|Hne].
      * unfold thread_step. rewrite IHt. now split.
      * destruct (thread_step_frame now i j w' Hne) as [-> ->]. now split.
    + destruct (decide (i = j)) as [<-|Hne].
      * destruct IHd as [Hd'|[Hterm Hd']].
        -- destruct (cancel_same_task i w' d0 Hd') as [-> H].
           now split.
        -- destruct (cancel_same_task i w' _ Hd') as [-> [H|[H _]]].
           ++ split; [exact IHt | right; now split].
           ++ discriminate H.
      * destruct (cancel_frame i j w' Hne) as [-> ->]. now split.
Qed.

(** C4. Saving the registry and loading it again gives, for every task,
    a record that agrees with the saved one on every key but the process
    handle, which is absent; no other task appears. The reloaded downloader
    has no runner thread, and along any of its runs a reloaded task never
    gets one: its record stays as reloaded, or differs by a [canceled]
    status after a cancel request. *)
Theorem save_then_reload
    (urlparse : string -> result parsed_url)
    (parse_qs : string -> result (gmap string (list string)))
    (w : world) (dir : string) (ffmpeg wr : bool) :
  writable w = true ->
  exists w0,
    new_downloader dir ffmpeg wr (state_file (_save_downloads w)) = Some w0 /\
    (forall i d, downloads w !! i = Some d ->
       exists d0, downloads w0 !! i = Some d0 /\ same_but_process d d0) /\
    (forall i, downloads w !! i = None -> downloads w0 !! i = None) /\
    threads w0 = ∅ /\
    (forall w' i d0,
       reaches urlparse parse_qs w0 w' -> downloads w0 !! i = Some d0 ->
       threads w' !! i = None /\
       (downloads w' !! i = Some d0
        \/ is_terminal d0 = false
           /\ downloads w' !! i = Some (set_status "canceled" d0))).
Proof.
  intros Hw. unfold new_downloader.
  rewrite (save_writable w Hw). cbn [_load_downloads].
  rewrite load_members. eexists. split; [reflexivity|].
  cbn [downloads threads].
  split; [|split; [|split]].
  - intros i d Hd. exists (del_process d). rewrite lookup_fmap, Hd.
    split; [reflexivity | apply del_process_same].
  - intros i Hd. now rewrite lookup_fmap, Hd.
  - reflexivity.
  - intros w' i d0 Hr Hd.
    apply (no_thread_invariant urlparse parse_qs _ w' i d0 Hr Hd).
    apply lookup_empty.
Qed.

Lemma save_then_reload_witness :
  let w := run_thread 4 1 "t1"
             (sample_world "video" (sample_env two_streams 0)) in
  exists w0,
    new_downloader "/tmp" true true (state_file (_save_downloads w)) = Some w0 /\
    threads w0 = ∅.
Proof.
  intros w.
  destruct (save_then_reload (fun _ => Raise (ValueError "")) (fun _ => Ok ∅)
              w "/tmp" true true eq_refl) as (w0 & H0 & _ & _ & Ht & _).
  exists w0. split; assumption.
Defined.

(** the reloaded record of a task that was downloading: the same progress,
    no process handle, and a cancel request still answers *)
Example reload_downloading_task :
  let w := run_thread 4 1 "t1"
             (sample_world "video" (sample_env two_streams 0)) in
  match new_downloader "/tmp" true true (state_file (_save_downloads w)) with
  | Some w0 =>
      (process <$> downloads w !! "t1") = Some (Some 7%nat) /\
      (process <$> downloads w0 !! "t1") = Some None /\
      status_of w0 "t1" = Some "downloading" /\
      (progress <$> downloads w0 !! "t1") = Some (Some 100) /\
      pc_of w0 "t1" = None /\
      thread_step 5 "t1" w0 = w0 /\
      status_of (snd (cancel_download "t1" w0)) "t1" = Some "canceled"
  | None => False
  end.
Proof. vm_compute. repeat split. Qed.

(** * Further properties of the task engine *)

(** ** What the line parser leaves alone *)

Lemma keeps_ret (I : download_info -> Prop) {A} (a : A) : keeps I (ret a).
Proof. intros d H. exact H. Qed.

Lemma keeps_raise (I : download_info -> Prop) {A} : keeps I (@raise_ A).
Proof. intros d H. exact H. Qed.

Lemma keeps_read (I : download_info -> Prop) : keeps I read.
Proof. intros d H. exact H. Qed.

Lemma keeps_of_option (I : download_info -> Prop) {A} (o : option A) :
  keeps I (of_option o).
Proof. destruct o; intros d H; exact H. Qed.

Lemma keeps_assign (I : download_info -> Prop)
    (f : download_info -> download_info) :
  (forall d, I d -> I (f d)) -> keeps I (assign f).
Proof. intros Hf d H. now apply Hf. Qed.

Lemma keeps_bind_val (I : download_info -> Prop) {A B} (m : Try A)
    (f : A -> Try B) :
  keeps I m ->
  (forall a d, I d -> snd (m d) = Some a -> keeps I (f a)) ->
  keeps I (bind m f).
Proof.
  intros Hm Hf d Hd. unfold bind. specialize (Hm d Hd).
  destruct (m d) as [d' [a|]] eqn:E; [|exact Hm].
  apply (Hf a d Hd); [now rewrite E | exact Hm].
Qed.

Lemma keeps_bind (I : download_info -> Prop) {A B} (m : Try A)
    (f : A -> Try B) :
  keeps I m -> (forall a, keeps I (f a)) -> keeps I (bind m f).
Proof. intros Hm Hf. apply keeps_bind_val; [exact Hm | intros; apply Hf]. Qed.

(** the steps of a [try] body, one rule at a time *)
Ltac keeps_step :=
  first
    [ apply keeps_ret | apply keeps_raise | apply keeps_read
    | apply keeps_of_option
    | apply keeps_bind; [|intros]
    | match goal with
      | |- keeps _ (match ?x with _ => _ end) => destruct x
      end ].

Lemma parse_progress_line_untouched (line : string) (d : download_info) :
  untouched d (fst (parse_progress_line line d)).
Proof.
  assert (H : keeps (untouched d) (parse_progress_line line)).
  { unfold parse_progress_line, parse_bytes, parse_speed, escaped_pct.
    repeat keeps_step;
      try (apply keeps_assign; intros d' Hd'; exact Hd'). }
  apply H. repeat split.
Qed.

(** ** Patterns that need a character the line does not have *)

Lemma run_without (c : ascii) (r : re) :
  forall (A : Type) (s : string) (caps : list string)
         (k : string -> list string -> option A),
    mem_char c s = false ->
    (needs c r = true -> run r s caps k = None) /\
    ((forall s' caps', mem_char c s' = false -> k s' caps' = None) ->
     run r s caps k = None).
Proof.
  induction r as [c'|p|r1 IH1 r2 IH2|r1 IH1|r1 IH1|n r1 IH1|r1 IH1];
    intros A s caps k Hs.
  - cbn [run needs]. destruct s as [|c'' s']; [split; reflexivity|].
    cbn [mem_char] in Hs. apply orb_false_iff in Hs. destruct Hs as [Hc Hs'].
    split.
    + intros Hn. apply Ascii.eqb_eq in Hn. subst c'. now rewrite Hc.
    + intros Hk. destruct (Ascii.eqb c' c''); [now apply Hk | reflexivity].
  - cbn [run needs]. destruct s as [|c'' s']; [split; [discriminate|reflexivity]|].
    cbn [mem_char] in Hs. apply orb_false_iff in Hs. destruct Hs as [Hc Hs'].
    split; [discriminate|].
    intros Hk. destruct (p c''); [now apply Hk | reflexivity].
  - cbn [run needs]. split.
    + intros Hn. apply orb_true_iff in Hn. destruct Hn as [Hn|Hn].
      * exact (proj1 (IH1 _ s caps _ Hs) Hn).
      * apply (proj2 (IH1 _ s caps _ Hs)). intros s' caps' Hs'.
        exact (proj1 (IH2 _ s' caps' _ Hs') Hn).
    + intros Hk. apply (proj2 (IH1 _ s caps _ Hs)). intros s' caps' Hs'.
      exact (proj2 (IH2 _ s' caps' _ Hs') Hk).
  - cbn [run needs]. split; [discriminate|].
    intros Hk. unfold orelse.
    rewrite (proj2 (IH1 A s caps k Hs) Hk). now apply Hk.
  - cbn [run needs]. split.
    + intros Hn. exact (proj1 (IH1 _ s caps _ Hs) Hn).
    + intros Hk.
      match goal with
      | |- context [?loop (String.length s)] =>
          assert (Hloop : forall n s1 c1,
                     mem_char c s1 = false -> loop n s1 c1 = None)
      end.
      { induction n as [|n IHn]; intros s1 c1 H1; [reflexivity|].
        apply (proj2 (IH1 _ s1 c1 _ H1)). intros s2 c2 H2. unfold orelse.
        destruct (String.length s2 <? String.length s1)%nat;
          [rewrite IHn by assumption|]; now apply Hk. }
      apply (proj2 (IH1 _ s caps _ Hs)). intros s1 c1 H1. unfold orelse.
      destruct (String.length s1 <? String.length s)%nat;
        [rewrite Hloop by assumption|]; now apply Hk.
  - cbn [run needs]. revert s caps Hs. induction n as [|n IHn]; intros s caps Hs.
    + split; [discriminate | intros Hk; now apply Hk].
    + split.
      * cbn [Nat.eqb negb andb]. intros Hn.
        exact (proj1 (IH1 _ s caps _ Hs) Hn).
      * intros Hk. apply (proj2 (IH1 _ s caps _ Hs)). intros s' caps' Hs'.
        exact (proj2 (IHn s' caps' Hs') Hk).
  - cbn [run needs]. split.
    + intros Hn. exact (proj1 (IH1 _ s caps _ Hs) Hn).
    + intros Hk. apply (proj2 (IH1 _ s caps _ Hs)). intros s' caps' Hs'.
      now apply Hk.
Qed.

Lemma search_without (c : ascii) (r : re) (s : string) :
  needs c r = true -> mem_char c s = false -> search r s = None.
Proof.
  intros Hn. induction s as [|c' s IH]; intros Hs; cbn [search].
  - now rewrite (proj1 (run_without c r _ "" [] _ Hs) Hn).
  - rewrite (proj1 (run_without c r _ (String c' s) [] _ Hs) Hn).
    apply IH. cbn [mem_char] in Hs. now apply orb_false_iff in Hs.
Qed.

Lemma escaped_patterns_need_backslash :
  needs backslash eta_re = true /\ needs backslash sizes_re = true /\
  needs backslash pct_re_escaped = true /\ needs backslash speed_re = true.
Proof. repeat split. Qed.

Ltac keeps_val :=
  apply keeps_bind_val;
  [| let a := fresh "a" in let d' := fresh "d" in
     let Hd := fresh "Hd" in let Hval := fresh "Hval" in
     intros a d' Hd Hval; cbn in Hval; injection Hval as <-].

Lemma parse_progress_line_counters (line : string) (d : download_info) :
  mem_char backslash line = false ->
  same_counters d (fst (parse_progress_line line d)).
Proof.
  intros Hline.
  destruct escaped_patterns_need_backslash as (He & Hs & Hp & Hsp).
  assert (H : keeps (same_counters d) (parse_progress_line line)).
  { unfold parse_progress_line, parse_bytes, parse_speed, escaped_pct.
    rewrite (search_without _ _ _ Hs Hline), (search_without _ _ _ Hp Hline),
      (search_without _ _ _ Hsp Hline).
    keeps_val; [apply keeps_read|].
    keeps_val; [repeat keeps_step|]. cbn beta iota.
    keeps_val; [apply keeps_ret|]. cbn beta iota.
    destruct Hd as (_ & _ & Hsb0).
    destruct (speed_bytes d0) as [sb|] eqn:Esb;
      repeat keeps_step;
      apply keeps_assign; intros d' (H1 & H2 & H3);
      repeat split; cbn; congruence. }
  apply H. repeat split.
Qed.

(** the parts of one loop iteration around the [try] *)
Lemma enter_processing_fields (now : Q) (line : string) (d : download_info) :
  let d' := enter_processing now line d in
  same_counters d d' /\
  url d' = url d /\ format_type d' = format_type d /\
  quality d' = quality d /\ start_time d' = start_time d /\
  process d' = process d /\ error d' = error d /\
  expected_extension d' = expected_extension d /\
  mime_type d' = mime_type d /\ output_file d' = output_file d /\
  filename d' = filename d /\ speed d' = speed d /\
  last_progress_line d' = last_progress_line d /\
  status d' = Some "processing" /\
  processing_start_time d'
  = match processing_start_time d with Some s => Some s | None => Some now end.
Proof.
  cbv zeta. unfold enter_processing. cbn [progress set_status].
  destruct (Qlt_b 90 _); cbn; destruct (processing_start_time d) eqn:E;
    repeat split; cbn; now rewrite ?E.
Qed.

Lemma record_destination_fields (line : string) (d : download_info) :
  let d' := record_destination line d in
  same_counters d d' /\
  url d' = url d /\ format_type d' = format_type d /\
  quality d' = quality d /\ start_time d' = start_time d /\
  process d' = process d /\ error d' = error d /\
  expected_extension d' = expected_extension d /\
  mime_type d' = mime_type d /\ status d' = status d /\
  processing_start_time d' = processing_start_time d.
Proof.
  cbv zeta. unfold record_destination. destruct (second_piece _); repeat split.
Qed.

Lemma after_try_untouched (line : string) (d : download_info) :
  untouched d (after_try line d).
Proof.
  unfold after_try. pose proof (parse_progress_line_untouched line d) as H.
  destruct (parse_progress_line line d) as [d' [u|]]; exact H.
Qed.

Lemma after_try_counters (line : string) (d : download_info) :
  mem_char backslash line = false -> same_counters d (after_try line d).
Proof.
  intros Hl. unfold after_try.
  pose proof (parse_progress_line_counters line d Hl) as H.
  destruct (parse_progress_line line d) as [d' [u|]]; exact H.
Qed.

Lemma process_line_unfold (now : Q) (line : string) (d : download_info) :
  process_line now line d
  = let d1 := if stage_marker line then enter_processing now line d else d in
    if contains "[download]" line && contains "%" line
    then after_try line (set_last_progress_line (strip line) d1)
    else if contains "Destination:" line then record_destination line d1
         else d1.
Proof. reflexivity. Qed.

Lemma progress_branch_untouched (line : string) (d : download_info) :
  untouched d (after_try line (set_last_progress_line (strip line) d)).
Proof. exact (after_try_untouched line (set_last_progress_line _ d)). Qed.

Lemma progress_branch_counters (line : string) (d : download_info) :
  mem_char backslash line = false ->
  same_counters d (after_try line (set_last_progress_line (strip line) d)).
Proof.
  intros H. exact (after_try_counters line (set_last_progress_line _ d) H).
Qed.

(** X1. One iteration of the output loop never changes the inputs of the task
    ([url], [format_type], [quality], [start_time]), its process handle,
    its error message, its expected extension or its MIME type, and the
    only status it writes is [processing], on a merge or convert marker:
    no output line makes a task completed, failed or canceled. *)
Theorem process_line_keeps_inputs (now : Q) (line : string)
    (d : download_info) :
  let d' := process_line now line d in
  url d' = url d /\ format_type d' = format_type d /\
  quality d' = quality d /\ start_time d' = start_time d /\
  process d' = process d /\ error d' = error d /\
  expected_extension d' = expected_extension d /\
  mime_type d' = mime_type d /\
  status d' = (if stage_marker line then Some "processing" else status d).
Proof.
  cbv zeta. rewrite process_line_unfold. cbv zeta.
  pose proof (enter_processing_fields now line d) as He. cbv zeta in He.
  set (d1 := if stage_marker line then enter_processing now line d else d).
  assert (H1 : url d1 = url d /\ format_type d1 = format_type d /\
               quality d1 = quality d /\ start_time d1 = start_time d /\
               process d1 = process d /\ error d1 = error d /\
               expected_extension d1 = expected_extension d /\
               mime_type d1 = mime_type d /\
               status d1 = (if stage_marker line then Some "processing"
                            else status d)).
  { unfold d1. destruct (stage_marker line); [|repeat split].
    destruct He as (_ & ? & ? & ? & ? & ? & ? & ? & ? & _ & _ & _ & _ & ? & _).
    repeat split; assumption. }
  clearbody d1. clear He.
  destruct H1 as (? & ? & ? & ? & ? & ? & ? & ? & ?).
  destruct (contains "[download]" line && contains "%" line).
  - destruct (progress_branch_untouched line d1)
      as (? & ? & ? & ? & ? & ? & ? & ? & ? & _).
    repeat split; congruence.
  - destruct (contains "Destination:" line); [|repeat split; assumption].
    pose proof (record_destination_fields line d1) as Hr. cbv zeta in Hr.
    destruct Hr as (_ & ? & ? & ? & ? & ? & ? & ? & ? & ? & _).
    repeat split; congruence.
Qed.

(** X2. The time at which processing began is recorded by the first merge or
    convert marker and kept by every later line, markers included. *)
Theorem processing_start_recorded_once (now : Q) (line : string)
    (d : download_info) :
  processing_start_time (process_line now line d)
  = match processing_start_time d with
    | Some s => Some s
    | None => if stage_marker line then Some now else None
    end.
Proof.
  rewrite process_line_unfold. cbv zeta.
  pose proof (enter_processing_fields now line d) as He. cbv zeta in He.
  set (d1 := if stage_marker line then enter_processing now line d else d).
  assert (H1 : processing_start_time d1
               = match processing_start_time d with
                 | Some s => Some s
                 | None => if stage_marker line then Some now else None
                 end).
  { unfold d1. destruct (stage_marker line).
    - destruct He as (_ & _ & _ & _ & _ & _ & _ & _ & _ & _ & _ & _ & _ & _ & ->).
      reflexivity.
    - now destruct (processing_start_time d). }
  clearbody d1. clear He. rewrite <- H1.
  destruct (contains "[download]" line && contains "%" line).
  - now destruct (progress_branch_untouched line d1)
      as (_ & _ & _ & _ & _ & _ & _ & _ & _ & _ & ? & _).
  - destruct (contains "Destination:" line); [|reflexivity].
    pose proof (record_destination_fields line d1) as Hr. cbv zeta in Hr.
    now destruct Hr as (_ & _ & _ & _ & _ & _ & _ & _ & _ & _ & ?).
Qed.

(** X3. An output line without a backslash never records byte counters or a
    numeric speed: the patterns for the size pair and for the rate are
    written with doubled backslashes and match a literal backslash only. *)
Theorem byte_counters_never_recorded (now : Q) (line : string)
    (d : download_info) :
  mem_char backslash line = false ->
  downloaded_bytes (process_line now line d) = downloaded_bytes d /\
  total_bytes (process_line now line d) = total_bytes d /\
  speed_bytes (process_line now line d) = speed_bytes d.
Proof.
  intros Hl. rewrite process_line_unfold. cbv zeta.
  pose proof (enter_processing_fields now line d) as He. cbv zeta in He.
  set (d1 := if stage_marker line then enter_processing now line d else d).
  assert (H1 : same_counters d d1).
  { unfold d1. destruct (stage_marker line); [apply He | repeat split]. }
  clearbody d1. clear He. destruct H1 as (? & ? & ?).
  destruct (contains "[download]" line && contains "%" line).
  - destruct (progress_branch_counters line d1 Hl) as (? & ? & ?).
    repeat split; congruence.
  - destruct (contains "Destination:" line); [|repeat split; assumption].
    pose proof (record_destination_fields line d1) as Hr. cbv zeta in Hr.
    destruct Hr as ((? & ? & ?) & _). repeat split; congruence.
Qed.

Lemma byte_counters_never_recorded_witness :
  let d := process_line 1 sample_progress_line
             (starting_record 0 sample_url "video" "best") in
  downloaded_bytes d = None /\ total_bytes d = None /\ speed_bytes d = None.
Proof.
  exact (byte_counters_never_recorded 1 sample_progress_line
           (starting_record 0 sample_url "video" "best") eq_refl).
Defined.

(** ** A step of a thread on its own task *)

Lemma threads_set_pc (i : string) (t : thread) (p : pc) (w : world) :
  threads (set_pc i t p w) !! i
  = Some {| th_pc := p; th_format_type := th_format_type t;
            th_env := th_env t |}.
Proof. simpl. apply lookup_insert_eq. Qed.

Lemma downloads_set_pc (i : string) (t : thread) (p : pc) (w : world) :
  downloads (set_pc i t p w) = downloads w.
Proof. reflexivity. Qed.

Lemma downloads_store (i : string) (d : download_info) (w : world) :
  downloads (store i d w) !! i = Some d.
Proof. simpl. apply lookup_insert_eq. Qed.


Lemma state_file_store (i : string) (d : download_info) (w : world) :
  state_file (store i d w) = state_file w.
Proof. reflexivity. Qed.

(** what one step of a thread does to its own task: the record stays in
    the registry, and a thread that reaches its end leaves the status
    [completed] or [failed] *)
Lemma thread_step_own (now : Q) (i : string) (w : world) (t : thread)
    (d : download_info) :
  threads w !! i = Some t -> downloads w !! i = Some d ->
  exists t' d',
    threads (thread_step now i w) !! i = Some t' /\
    downloads (thread_step now i w) !! i = Some d' /\
    (th_pc t' = Finished ->
     thread_step now i w = w
     \/ status d' = Some "completed" \/ status d' = Some "failed").
Proof.
  intros Ht Hd. unfold thread_step. rewrite Ht, Hd.
  destruct (th_pc t) as [| |[|line rest]| | |] eqn:Hpc.
  - eexists _, _. rewrite threads_set_pc, downloads_set_pc, downloads_store.
    repeat split. discriminate.
  - unfold launch, spawn.
    repeat case_match;
      eexists _, _; rewrite threads_set_pc, downloads_set_pc;
      rewrite ?downloads_save;
      first [ rewrite downloads_store
            | erewrite lookup_fail_task by first [exact Hd | apply downloads_store] ];
      (split; [reflexivity|]); (split; [reflexivity|]); cbn; intros Hfin;
      try discriminate Hfin; try (right; right; reflexivity).
    right. left.
    match goal with
    | H : thumbnail_branch _ _ _ = Ok _ |- _ =>
        apply thumbnail_branch_status in H; tauto
    end.
  - eexists _, _. rewrite threads_set_pc, downloads_set_pc, Hd.
    repeat split. discriminate.
  - unfold read_line. case_match;
      eexists _, _; rewrite threads_set_pc, downloads_set_pc.
    + case_match; cbn [downloads with_signals]; rewrite Hd;
        repeat split; discriminate.
    + rewrite downloads_store. repeat split. discriminate.
  - unfold after_wait. case_match;
      eexists _, _; rewrite threads_set_pc, downloads_set_pc,
        ?downloads_save, downloads_store;
      repeat split; try discriminate.
    intros _. right. right. reflexivity.
  - eexists _, _. rewrite threads_set_pc, downloads_set_pc, downloads_save,
      downloads_store.
    repeat split. intros _. right. left. apply post_process_completed.
  - exists t, d. repeat split; try assumption. intros _. now left.
Qed.

(** ** Invariants of a running downloader *)






(** X5. Along any run, a task that is in the registry stays in it: polling it
    never fails with "Download ID not found". *)
Theorem known_task_stays_known
    (urlparse : string -> result parsed_url)
    (parse_qs : string -> result (gmap string (list string)))
    (w w' : world) (i : string) (now : Q) :
  reaches urlparse parse_qs w w' ->
  is_Some (downloads w !! i) ->
  exists v, get_progress now (downloads w') i = Ok v.
Proof.
  intros Hr Hi.
  assert (Hs : is_Some (downloads w' !! i)).
  { induction Hr as [w|w w' ev Hr IH Hadm]; [exact Hi|].
    specialize (IH Hi). destruct IH as [d Hd].
    destruct ev as [t j env u f q|t j|j]; cbn [apply_event admissible] in *.
    - destruct (decide (i = j)) as [->|Hne]; [congruence|].
      destruct (start_download_frame urlparse parse_qs t i j env u f q w' Hne)
        as [-> _]. eauto.
    - destruct (decide (i = j)) as [<-|Hne].
      + destruct (threads w' !! i) as [t0|] eqn:Ht0.
        * destruct (thread_step_own t i w' t0 d Ht0 Hd)
            as (_ & d' & _ & -> & _). eauto.
        * unfold thread_step. rewrite Ht0. eauto.
      + destruct (thread_step_frame t i j w' Hne) as [-> _]. eauto.
    - destruct (decide (i = j)) as [<-|Hne].
      + destruct (cancel_same_task i w' d Hd) as [_ [->|[_ ->]]]; eauto.
      + destruct (cancel_frame i j w' Hne) as [-> _]. eauto. }
  destruct Hs as [d Hd]. unfold get_progress. rewrite Hd. eauto.
Qed.

Lemma known_task_stays_known_witness :
  exists v,
    get_progress 5
      (downloads (apply_event sample_urlparse sample_parse_qs (ERun 1 "t1")
                    (sample_world "audio" (sample_env [] 1)))) "t1" = Ok v.
Proof.
  apply (known_task_stays_known sample_urlparse sample_parse_qs
           (sample_world "audio" (sample_env [] 1))).
  - apply reaches_step; [apply reaches_refl | exact I].
  - eexists. reflexivity.
Defined.

(** X6. A start, a thread step or a cancel request for one task leaves the
    record, the thread and the polled view of every other task as they
    were. *)
Theorem tasks_are_isolated
    (urlparse : string -> result parsed_url)
    (parse_qs : string -> result (gmap string (list string)))
    (ev : event) (w : world) (i : string) (now : Q) :
  event_task ev <> i ->
  downloads (apply_event urlparse parse_qs ev w) !! i = downloads w !! i /\
  threads (apply_event urlparse parse_qs ev w) !! i = threads w !! i /\
  get_progress now (downloads (apply_event urlparse parse_qs ev w)) i
  = get_progress now (downloads w) i /\
  get_download_file (downloads (apply_event urlparse parse_qs ev w)) i
  = get_download_file (downloads w) i.
Proof.
  intros Hne.
  assert (H : same_at i (apply_event urlparse parse_qs ev w) w).
  { destruct ev as [t j env u f q|t j|j]; cbn [apply_event event_task] in *.
    - apply start_download_frame. congruence.
    - apply thread_step_frame. congruence.
    - apply cancel_frame. congruence. }
  destruct H as [Hd Ht]. unfold get_progress, get_download_file.
  rewrite Hd. repeat split. exact Ht.
Qed.

Lemma tasks_are_isolated_witness :
  let w := sample_world "video" (sample_env two_streams 0) in
  downloads (apply_event sample_urlparse sample_parse_qs (ECancel "t2") w) !! "t1"
  = downloads w !! "t1".
Proof.
  intros w.
  refine (proj1 (tasks_are_isolated sample_urlparse sample_parse_qs
                   (ECancel "t2") w "t1" 0 _)).
  discriminate.
Defined.

(** ** Cancellation *)

Lemma is_terminal_canceled (d : download_info) :
  is_terminal (set_status "canceled" d) = true.
Proof. reflexivity. Qed.

(** X7. A second cancel request for the same task gives the same answer as the
    first and changes nothing: no further signal, no further write. *)
Theorem cancel_download_idempotent (i : string) (w : world) :
  cancel_download i (snd (cancel_download i w))
  = (fst (cancel_download i w), snd (cancel_download i w)).
Proof.
  unfold cancel_download at 2 3 4.
  destruct (downloads w !! i) as [d|] eqn:Hd.
  - destruct (is_terminal d) eqn:Ht; cbn [fst snd].
    + unfold cancel_download. now rewrite Hd, Ht.
    + unfold cancel_download. rewrite downloads_save.
      assert (Hl : downloads
                     (match process d with
                      | Some p =>
                          with_signals
                            (p :: signals (store i (set_status "canceled" d) w))
                            (store i (set_status "canceled" d) w)
                      | None => store i (set_status "canceled" d) w
                      end) !! i = Some (set_status "canceled" d)).
      { destruct (process d); apply downloads_store. }
      rewrite Hl, is_terminal_canceled. reflexivity.
  - cbn [fst snd]. unfold cancel_download. now rewrite Hd.
Qed.

(** X8. A cancel request that was answered survives a restart: when the state
    file can be written, the downloader built from it holds the task with
    status [canceled] and without process handle, and a cancel request on
    it answers [True] and changes nothing. *)
Theorem cancel_survives_restart (i : string) (w : world) (d : download_info)
    (dir : string) (ffmpeg wr : bool) :
  writable w = true -> downloads w !! i = Some d -> is_terminal d = false ->
  exists w0,
    new_downloader dir ffmpeg wr (state_file (snd (cancel_download i w)))
    = Some w0 /\
    downloads w0 !! i = Some (del_process (set_status "canceled" d)) /\
    status_of w0 i = Some "canceled" /\
    threads w0 = ∅ /\
    cancel_download i w0 = (true, w0).
Proof.
  intros Hw Hd Ht. unfold cancel_download at 1. rewrite Hd, Ht. cbn [snd].
  set (w1 := match process d with
             | Some p =>
                 with_signals (p :: signals (store i (set_status "canceled" d) w))
                              (store i (set_status "canceled" d) w)
             | None => store i (set_status "canceled" d) w
             end).
  assert (Hw1 : writable w1 = true) by (unfold w1; now destruct (process d)).
  assert (Hd1 : downloads w1 = <[i := set_status "canceled" d]> (downloads w))
    by (unfold w1; now destruct (process d)).
  rewrite (save_writable w1 Hw1). unfold new_downloader.
  cbn [_load_downloads]. rewrite load_members. eexists. split; [reflexivity|].
  assert (Hl : (del_process <$> downloads w1) !! i
               = Some (del_process (set_status "canceled" d))).
  { now rewrite lookup_fmap, Hd1, lookup_insert_eq. }
  cbn [downloads threads]. split; [exact Hl|].
  split; [unfold status_of; cbn [downloads]; now rewrite Hl|].
  split; [reflexivity|].
  unfold cancel_download. cbn [downloads]. rewrite Hl. reflexivity.
Qed.

Lemma cancel_survives_restart_witness :
  let w := run_thread 4 1 "t1"
             (sample_world "video" (sample_env two_streams 0)) in
  exists w0,
    new_downloader "/tmp" true true (state_file (snd (cancel_download "t1" w)))
    = Some w0 /\
    status_of w0 "t1" = Some "canceled".
Proof.
  intros w.
  assert (Hw : writable w = true) by (vm_compute; reflexivity).
  assert (Hd : downloads w !! "t1"
               = Some (default_to empty_info (downloads w !! "t1")))
    by (vm_compute; reflexivity).
  assert (Ht : is_terminal (default_to empty_info (downloads w !! "t1")) = false)
    by (vm_compute; reflexivity).
  destruct (cancel_survives_restart "t1" w _ "/tmp" true true Hw Hd Ht)
    as (w0 & H0 & _ & Hs & _).
  exists w0. split; assumption.
Defined.

(** ** The runner thread *)



Lemma run_thread_finished (n : nat) (now : Q) (i : string) (w : world)
    (t : thread) :
  threads w !! i = Some t -> th_pc t = Finished ->
  downloads w !! i <> None ->
  run_thread n now i w = w.
Proof.
  intros Ht Hpc Hd. induction n as [|n IH]; [reflexivity|].
  cbn [run_thread].
  assert (Hs : thread_step now i w = w).
  { unfold thread_step. rewrite Ht.
    destruct (downloads w !! i); [|congruence]. now rewrite Hpc. }
  now rewrite Hs.
Qed.

(** X10. A subprocess that exits with a code other than 0 makes the task
    [failed] in memory only: from the launch to the end of the thread,
    whatever the subprocess prints, the state file is not written. *)
Theorem failed_exit_is_not_saved (now : Q) (i : string)
    (lines : list string) (w : world) (t : thread) (d : download_info) :
  threads w !! i = Some t -> th_pc t = Reading lines ->
  downloads w !! i = Some d ->
  env_return_code (th_env t) <> 0%Z ->
  let w' := run_thread (List.length lines + 2) now i w in
  pc_of w' i = Some Finished /\
  status_of w' i = Some "failed" /\
  state_file w' = state_file w.
Proof.
  revert w t d. induction lines as [|line rest IH];
    intros w t d Ht Hpc Hd Hrc.
  - cbn [List.length Nat.add run_thread]. cbv zeta.
    assert (H1 : thread_step now i w = set_pc i t Waiting w).
    { unfold thread_step. now rewrite Ht, Hd, Hpc. }
    rewrite H1.
    assert (H2 : thread_step now i (set_pc i t Waiting w)
                 = after_wait i {| th_pc := Waiting;
                                   th_format_type := th_format_type t;
                                   th_env := th_env t |} d
                     (set_pc i t Waiting w)).
    { unfold thread_step. now rewrite threads_set_pc, downloads_set_pc, Hd. }
    rewrite H2. unfold after_wait. cbn [th_env].
    destruct (Z.eqb_spec (env_return_code (th_env t)) 0) as [E|_];
      [contradiction|]. cbn [andb].
    unfold pc_of, status_of.
    rewrite threads_set_pc, downloads_set_pc, downloads_store.
    repeat split.
  - cbn [List.length Nat.add run_thread]. cbv zeta.
    assert (H1 : thread_step now i w = read_line now i t line rest d w).
    { unfold thread_step. now rewrite Ht, Hd, Hpc. }
    rewrite H1. unfold read_line.
    destruct (is_str (status d) "canceled") eqn:Hc.
    + set (w1 := match process d with
                 | Some p => with_signals (p :: signals w) w
                 | None => w
                 end).
      assert (Hd1 : downloads w1 = downloads w)
        by (unfold w1; now destruct (process d)).
      assert (Hf1 : state_file w1 = state_file w)
        by (unfold w1; now destruct (process d)).
      destruct (List.length rest + 2)%nat as [|n] eqn:En; [lia|].
      cbn [run_thread].
      assert (H2 : thread_step now i (set_pc i t Waiting w1)
                   = after_wait i {| th_pc := Waiting;
                                     th_format_type := th_format_type t;
                                     th_env := th_env t |} d
                       (set_pc i t Waiting w1)).
      { unfold thread_step.
        now rewrite threads_set_pc, downloads_set_pc, Hd1, Hd. }
      rewrite H2. unfold after_wait. rewrite Hc, andb_false_r.
      rewrite (run_thread_finished n now i _ _ (threads_set_pc _ _ _ _) eq_refl).
      * unfold pc_of, status_of.
        rewrite threads_set_pc, downloads_set_pc, downloads_store.
        repeat split. exact Hf1.
      * rewrite downloads_set_pc, downloads_store. discriminate.
    + destruct (IH (set_pc i t (Reading rest)
                      (store i (process_line now line d) w))
                   _ (process_line now line d) (threads_set_pc _ _ _ _) eq_refl)
        as (Hp & Hs & Hf).
      * rewrite downloads_set_pc. apply downloads_store.
      * exact Hrc.
      * split; [exact Hp|]. split; [exact Hs|]. now rewrite Hf.
Qed.

Lemma failed_exit_is_not_saved_witness :
  let w := run_thread 2 1 "t1"
             (sample_world "video" (sample_env two_streams 1)) in
  status_of (run_thread 8 2 "t1" w) "t1" = Some "failed" /\
  state_file (run_thread 8 2 "t1" w) = state_file w.
Proof.
  intros w.
  assert (Ht : threads w !! "t1"
               = Some {| th_pc := Reading two_streams;
                         th_format_type := "video";
                         th_env := sample_env two_streams 1 |})
    by (vm_compute; reflexivity).
  assert (Hd : downloads w !! "t1"
               = Some (default_to empty_info (downloads w !! "t1")))
    by (vm_compute; reflexivity).
  destruct (failed_exit_is_not_saved 2 "t1" two_streams w _ _ Ht eq_refl Hd)
    as (_ & Hs & Hf); [discriminate|].
  split; assumption.
Defined.

(** after such a failure a restart shows the task as it was last saved, at
    its creation *)
Example failed_exit_after_restart :
  let w := run_thread 10 1 "t1"
             (sample_world "video" (sample_env two_streams 1)) in
  status_of w "t1" = Some "failed" /\
  match new_downloader "/tmp" true true (state_file w) with
  | Some w0 => status_of w0 "t1" = Some "starting"
  | None => False
  end.
Proof. vm_compute. split; reflexivity. Qed.


(** X11. When the subprocess exits with code 0 and neither a destination line
    nor the working directory gives a file, the task still ends
    [completed], with progress 100 and the error message of the missing
    file; it has no output path, and the route answers 404. *)
Theorem completed_without_file (i : string) (env : run_env)
    (d : download_info) :
  output_file d = None -> env_glob_all env = [] -> env_glob_dot env = [] ->
  let d' := post_process env d in
  status d' = Some "completed" /\ progress d' = Some 100 /\
  error d' = Some "Download completed but file not found" /\
  output_file d' = None /\
  get_download_file_route {[ i := d' ]} i
  = NotFound404 "File not found or download not complete".
Proof.
  intros Ho Hg Hd. cbv zeta.
  assert (Hp : post_process env d
               = set_speed "Complete"
                   (set_eta "Done"
                      (set_progress 100
                         (set_status "completed"
                            (set_error "Download completed but file not found"
                               (set_status "failed" d)))))).
  { unfold post_process, locate_output. rewrite Ho, Hg. rewrite Ho, Hd.
    reflexivity. }
  rewrite Hp. cbn [status progress error output_file set_speed set_eta
                   set_progress set_status set_error].
  repeat split; try assumption.
  unfold get_download_file_route, get_download_file.
  rewrite lookup_singleton_eq.
  cbn [status set_speed set_eta set_progress set_status set_error is_str
       output_file filename mime_type].
  rewrite Ho. reflexivity.
Qed.

Lemma completed_without_file_witness :
  let d := post_process (sample_env [] 0)
             (starting_record 0 sample_url "audio" "best") in
  status d = Some "completed" /\
  error d = Some "Download completed but file not found".
Proof.
  destruct (completed_without_file "t1" (sample_env [] 0)
              (starting_record 0 sample_url "audio" "best")
              eq_refl eq_refl eq_refl) as (Hs & _ & He & _).
  split; assumption.
Defined.

(** ** Polling *)

(** X12. Once a progress line with a percentage is recorded, [get_progress]
    reports at most 90 in every status but [processing], [completed]
    included, whatever progress the record stores. *)
Theorem progress_line_caps_report (now : Q) (d : download_info)
    (raw : string) (p : Q) :
  last_progress_line d = Some raw -> is_progress_line raw = true ->
  pct_of raw = Some p -> status d <> Some "processing" ->
  pv_progress (view_of now d) <= 90.
Proof.
  intros Hl Hr Hp Hs. unfold view_of. rewrite Hl. cbn [default_to].
  destruct (reparse_raw_line _ _ _) as [[x e] s] eqn:E.
  apply (reparse_progress _ _ p) in E; [|assumption..].
  assert (Hst : String.eqb (default_to "unknown" (status d)) "processing"
                = false).
  { destruct (status d) as [st|]; [|reflexivity]. cbn [default_to].
    destruct (String.eqb_spec st "processing"); [congruence | reflexivity]. }
  rewrite Hst in *. cbn [negb andb] in E.
  assert (Hx : x <= 90).
  { subst x. destruct (Qlt_b 90 p); [lra | apply Q.le_min_l]. }
  destruct (String.eqb (default_to "unknown" (status d)) "downloading"
            && Qlt_b x (1 # 10)); cbn [pv_progress]; [lra | exact Hx].
Qed.

Lemma progress_line_caps_report_witness :
  let d := set_last_progress_line "[download] 100% of 3.00MiB in 00:01"
             (set_progress 100 (set_status "completed" empty_info)) in
  pv_progress (view_of 9 d) <= 90.
Proof.
  intros d.
  apply (progress_line_caps_report 9 d "[download] 100% of 3.00MiB in 00:01" 100);
    try reflexivity.
  discriminate.
Defined.

(** ** Starting a task *)

(** X13. [start_download] either raises and leaves the downloader as it was, or
    returns the task id after storing the starting record, creating the
    thread and, when the state file can be written, saving the registry;
    polling the new task then shows status [starting] and progress 0. *)
Theorem start_download_all_or_nothing
    (urlparse : string -> result parsed_url)
    (parse_qs : string -> result (gmap string (list string)))
    (now now' : Q) (i : string) (env : run_env) (u f q : string) (w : world) :
  let r := start_download urlparse parse_qs now i env u f q w in
  (exists e, fst r = Raise e) /\ snd r = w
  \/ fst r = Ok i /\
     downloads (snd r) = <[i := starting_record now u f q]> (downloads w) /\
     threads (snd r)
     = <[i := {| th_pc := AtStart; th_format_type := f; th_env := env |}]>
         (threads w) /\
     signals (snd r) = signals w /\
     (writable w = true ->
      state_file (snd r)
      = Snapshot (members <$> <[i := starting_record now u f q]> (downloads w))) /\
     polled now' (snd r) i = Some ("starting", 0).
Proof.
  cbv zeta. unfold start_download.
  destruct (_is_valid_youtube_url urlparse parse_qs u) as [[|]|e];
    [|left; split; eauto..].
  destruct (negb (in_list f ["video"; "audio"; "thumbnail"]));
    [left; split; eauto|].
  right. cbn [fst snd downloads threads signals state_file with_threads].
  rewrite downloads_save, signals_save, threads_save.
  split; [reflexivity|]. split; [reflexivity|]. split; [reflexivity|].
  split; [reflexivity|]. split.
  - intros Hw. now rewrite save_writable.
  - unfold polled, get_progress. cbn [downloads with_threads].
    rewrite downloads_save, downloads_store. reflexivity.
Qed.

(** ** Retention *)

Lemma expired_spec (current_time max_age_seconds : Q) (d : download_info) :
  expired current_time max_age_seconds d = true
  <-> max_age_seconds < current_time - default_to 0 (start_time d).
Proof. apply Qlt_b_true. Qed.

(** X14. The sweep keeps every record whose age does not exceed the maximum,
    unchanged; it removes a record that is older, unless the removal of
    its path raised, in which case the record stays; it adds no record and
    touches no thread. A record without [start_time] is aged from time
    0. *)
Theorem cleanup_keeps_recent (current_time max_age_seconds : Q)
    (remove_raises : string -> bool) (w : world) (i : string) :
  let w' := snd (cleanup_old_downloads current_time max_age_seconds
                                       remove_raises w) in
  (forall d, downloads w !! i = Some d ->
     current_time - default_to 0 (start_time d) <= max_age_seconds ->
     downloads w' !! i = Some d) /\
  (forall d, downloads w !! i = Some d ->
     max_age_seconds < current_time - default_to 0 (start_time d) ->
     downloads w' !! i = if remove_raises i then Some d else None) /\
  (downloads w !! i = None -> downloads w' !! i = None) /\
  threads w' = threads w /\ signals w' = signals w.
Proof.
  cbv zeta. unfold cleanup_old_downloads. cbn [snd].
  set (old := filter (λ kv, expired current_time max_age_seconds kv.2 = true)
                     (downloads w)).
  set (kept := filter _ (downloads w)).
  assert (Hall : forall w1,
             (downloads w1 = kept /\ threads w1 = threads w
              /\ signals w1 = signals w) ->
             (forall d, downloads w !! i = Some d ->
                current_time - default_to 0 (start_time d) <= max_age_seconds ->
                downloads w1 !! i = Some d) /\
             (forall d, downloads w !! i = Some d ->
                max_age_seconds < current_time - default_to 0 (start_time d) ->
                downloads w1 !! i = if remove_raises i then Some d else None) /\
             (downloads w !! i = None -> downloads w1 !! i = None) /\
             threads w1 = threads w /\ signals w1 = signals w).
  { intros w1 (Hd & Ht & Hs). rewrite Hd, Ht, Hs. unfold kept.
    split; [|split; [|split; [|split; reflexivity]]].
    - intros d Hi Hage. apply map_lookup_filter_Some. split; [exact Hi|].
      cbv beta. cbn [fst snd]. intros [He _]. apply expired_spec in He.
      apply (Qlt_not_le _ _ He Hage).
    - intros d Hi Hage. apply expired_spec in Hage.
      destruct (remove_raises i) eqn:Hr.
      + apply map_lookup_filter_Some. split; [exact Hi|]. cbv beta. cbn [fst snd].
        intros [_ H]. congruence.
      + apply map_lookup_filter_None. right. intros x Hx. cbv beta. cbn [fst snd].
        intros Hn. apply Hn. split; congruence.
    - intros Hi. apply map_lookup_filter_None. now left. }
  destruct (decide _); apply Hall.
  - repeat split.
  - now rewrite downloads_save, threads_save, signals_save.
Qed.

Lemma cleanup_keeps_recent_witness :
  let w := sample_world "video" (sample_env [] 0) in
  downloads (snd (cleanup_old_downloads 3600 3600 (fun _ => false) w)) !! "t1"
  = Some (starting_record 0 sample_url "video" "best").
Proof.
  intros w.
  refine (proj1 (cleanup_keeps_recent 3600 3600 (fun _ => false) w "t1")
                _ eq_refl _).
  vm_compute. discriminate.
Defined.

(** X15. The sweep returns the number of records older than the maximum age,
    those it could not remove included, and writes the state file exactly
    when that number is not 0. When no removal raises, a second sweep at
    the same time finds nothing: it returns 0 and changes nothing. *)
Theorem cleanup_count_and_save (current_time max_age_seconds : Q)
    (remove_raises : string -> bool) (w : world) :
  let r := cleanup_old_downloads current_time max_age_seconds
                                 remove_raises w in
  fst r = size (filter
                  (fun kv => expired current_time max_age_seconds (snd kv) = true)
                  (downloads w)) /\
  (fst r = 0%nat -> state_file (snd r) = state_file w) /\
  (fst r <> 0%nat -> writable w = true ->
   state_file (snd r) = Snapshot (members <$> downloads (snd r))) /\
  ((forall i, remove_raises i = false) ->
   cleanup_old_downloads current_time max_age_seconds remove_raises (snd r)
   = (0%nat, snd r)).
Proof.
  cbv zeta.
  set (old := filter (λ kv, expired current_time max_age_seconds kv.2 = true)
                     (downloads w)).
  set (kept := filter (λ kv, ¬ (expired current_time max_age_seconds kv.2 = true
                                ∧ remove_raises kv.1 = false)) (downloads w)).
  set (r := cleanup_old_downloads current_time max_age_seconds remove_raises w).
  assert (Hfst : fst r = size old) by reflexivity.
  assert (Hsnd : snd r = if decide (old = ∅) then with_downloads kept w
                         else _save_downloads (with_downloads kept w))
    by reflexivity.
  assert (Hd : downloads (snd r) = kept).
  { rewrite Hsnd. destruct (decide _); [reflexivity | apply downloads_save]. }
  split; [exact Hfst|]. split; [|split].
  - intros H0. rewrite Hfst in H0. apply map_size_empty_iff in H0.
    rewrite Hsnd. destruct (decide (old = ∅)); [reflexivity | contradiction].
  - intros Hn Hw. rewrite Hfst in Hn. rewrite Hd, Hsnd.
    destruct (decide (old = ∅)) as [He|_].
    + rewrite He in Hn. now rewrite map_size_empty in Hn.
    + now rewrite save_writable by exact Hw.
  - intros Hr. clearbody r. unfold cleanup_old_downloads. rewrite Hd.
    assert (Hold : filter (λ kv, expired current_time max_age_seconds kv.2 = true)
                          kept = ∅).
    { apply map_empty_filter. intros i x Hx He. cbn [snd] in He.
      unfold kept in Hx. apply map_lookup_filter_Some in Hx.
      destruct Hx as [_ Hx]. apply Hx. split; [exact He | apply Hr]. }
    rewrite Hold. rewrite map_size_empty.
    destruct (decide (∅ = ∅)) as [_|Hc]; [|contradiction].
    f_equal.
    assert (Hk : filter (λ kv, ¬ (expired current_time max_age_seconds kv.2 = true
                                  ∧ remove_raises kv.1 = false)) kept = kept).
    { apply map_filter_id. intros i x Hx. cbv beta. cbn [fst snd].
      intros [He _].
      assert (Hin : filter (λ kv, expired current_time max_age_seconds kv.2 = true)
                           kept !! i = Some x).
      { apply map_lookup_filter_Some. now split. }
      rewrite Hold in Hin. discriminate. }
    rewrite Hk. rewrite <- Hd. now destruct (snd r).
Qed.

(** ** The video id *)




Lemma str_length_app (a b : string) :
  String.length (a ++ b) = (String.length a + String.length b)%nat.
Proof.
  induction a as [|c a IH]; [reflexivity|].
  change (S (String.length (a ++ b))
          = S (String.length a + String.length b)).
  now rewrite IH.
Qed.

Lemma substring_prefix (a b : string) :
  String.substring 0 (String.length (a ++ b) - String.length b) (a ++ b) = a.
Proof.
  rewrite str_length_app.
  replace (String.length a + String.length b - String.length b)%nat
    with (String.length a) by lia.
  induction a as [|c a IH]; [now destruct b|].
  change (String c (String.substring 0 (String.length a) (a ++ b))
          = String c a).
  now rewrite IH.
Qed.













(** *** Which URLs have a video id *)

Lemma m_search_skip (m : matcher (list string)) (c : ascii) (s : string) :
  m (String c s) [] (fun _ caps => Some caps) = None ->
  m_search m (String c s) = m_search m s.
Proof. intros H. cbn [m_search]. now rewrite H. Qed.

Lemma m_search_hit (m : matcher (list string)) (s : string)
    (caps : list string) :
  m s [] (fun _ caps => Some caps) = Some caps -> m_search m s = Some caps.
Proof. intros H. destruct s; cbn [m_search]; now rewrite H. Qed.

Lemma video_url_prefix_first {A} (c : ascii) (s : string)
    (caps : list string) (k : string -> list string -> option A) :
  Ascii.eqb "y" c = false -> video_url_prefix (String c s) caps k = None.
Proof.
  intros H. unfold video_url_prefix, youtube_com. cbn [m_alt].
  unfold m_seq, m_re, orelse. cbn [seq lit run]. now rewrite H.
Qed.

Lemma video_url_path_without {A} (s : string) (caps : list string)
    (k : string -> list string -> option A) :
  mem_char "/" s = false -> video_url_path s caps k = None.
Proof.
  intros H. unfold video_url_path. cbn [m_alt]. unfold m_re.
  rewrite !(fun r Hr => proj1 (run_without "/" r A s caps k H) Hr)
    by reflexivity.
  reflexivity.
Qed.

Lemma video_url_prefix_without {A} (s : string) (caps : list string)
    (k : string -> list string -> option A) :
  mem_char "/" s = false -> video_url_prefix s caps k = None.
Proof.
  intros H. unfold video_url_prefix. cbn [m_alt]. unfold m_seq, m_re.
  rewrite (proj1 (run_without "/" youtube_com A s caps _ H)) by reflexivity.
  rewrite (proj1 (run_without "/" (lit "youtu.be/") A s caps k H))
    by reflexivity.
  reflexivity.
Qed.

Lemma video_url_prefix_youtube_com {A} (s : string) (caps : list string)
    (k : string -> list string -> option A) :
  video_url_prefix ("youtube.com/" ++ s) caps k = video_url_path s caps k.
Proof.
  unfold video_url_prefix. cbn [m_alt]. unfold m_seq, m_re.
  assert (H1 : forall k' : string -> list string -> option A,
             run youtube_com ("youtube.com/" ++ s) caps k' = k' s caps)
    by reflexivity.
  assert (H2 : run (lit "youtu.be/") ("youtube.com/" ++ s) caps k = None)
    by reflexivity.
  rewrite H1, H2. unfold orelse. now destruct (video_url_path s caps k).
Qed.

Lemma video_url_prefix_youtu_be {A} (s : string) (caps : list string)
    (k : string -> list string -> option A) :
  video_url_prefix ("youtu.be/" ++ s) caps k = k s caps.
Proof.
  unfold video_url_prefix. cbn [m_alt]. unfold m_seq, m_re.
  assert (H1 : forall k' : string -> list string -> option A,
             run youtube_com ("youtu.be/" ++ s) caps k' = None)
    by reflexivity.
  assert (H2 : run (lit "youtu.be/") ("youtu.be/" ++ s) caps k = k s caps)
    by reflexivity.
  rewrite H1, H2. unfold orelse. now destruct (k s caps).
Qed.

(** the search passes over characters other than [y] *)
Lemma m_search_skip_pre (X : matcher (list string)) (pre s : string) :
  mem_char "y" pre = false ->
  m_search (m_seq video_url_prefix X) (pre ++ s)
  = m_search (m_seq video_url_prefix X) s.
Proof.
  induction pre as [|c pre IH]; intros H; [reflexivity|].
  cbn [mem_char] in H. apply orb_false_iff in H. destruct H as [Hc Hpre].
  change (String c pre ++ s) with (String c (pre ++ s)).
  rewrite m_search_skip; [now apply IH|].
  unfold m_seq. now apply video_url_prefix_first.
Qed.

Lemma m_search_without (X : matcher (list string)) (s : string) :
  mem_char "/" s = false -> m_search (m_seq video_url_prefix X) s = None.
Proof.
  induction s as [|c s IH]; intros H.
  - cbn [m_search]. unfold m_seq. now rewrite video_url_prefix_without.
  - rewrite m_search_skip.
    + apply IH. cbn [mem_char] in H. now apply orb_false_iff in H.
    + unfold m_seq. now apply video_url_prefix_without.
Qed.

Lemma mem_char_app (c : ascii) (s1 s2 : string) :
  mem_char c (s1 ++ s2) = mem_char c s1 || mem_char c s2.
Proof.
  induction s1 as [|c1 s1 IH]; [reflexivity|].
  change (String c1 s1 ++ s2) with (String c1 (s1 ++ s2)).
  cbn [mem_char]. now rewrite IH, orb_assoc.
Qed.

Lemma watch_url_search (X : matcher (list string)) (pre tail : string) :
  mem_char "y" pre = false -> mem_char "/" tail = false ->
  m_search (m_seq video_url_prefix X) (pre ++ "youtube.com/watch?v=" ++ tail)
  = None.
Proof.
  intros Hpre Htail. rewrite m_search_skip_pre by exact Hpre.
  assert (Hw : mem_char "/" ("watch?v=" ++ tail) = false)
    by (rewrite mem_char_app, Htail; reflexivity).
  change ("youtube.com/watch?v=" ++ tail)
    with (String "y" ("outube.com/" ++ "watch?v=" ++ tail)).
  rewrite m_search_skip.
  - rewrite (m_search_skip_pre X "outube.com/") by reflexivity.
    now apply m_search_without.
  - unfold m_seq.
    change (String "y" ("outube.com/" ++ "watch?v=" ++ tail))
      with ("youtube.com/" ++ "watch?v=" ++ tail).
    rewrite video_url_prefix_youtube_com. now apply video_url_path_without.
Qed.

(** X17. The id extractor finds no video id in a watch URL of the usual form,
    [youtube.com/watch?v=...] after a scheme and host prefix without the
    letter y, when nothing after [v=] contains a slash: the pattern asks
    for a path segment before [/watch]. *)
Theorem watch_url_has_no_video_id (pre tail : string) :
  mem_char "y" pre = false -> mem_char "/" tail = false ->
  extract_video_id (pre ++ "youtube.com/watch?v=" ++ tail) = None.
Proof.
  intros Hpre Htail. unfold extract_video_id.
  unfold video_id_pattern, video_id_pattern_query.
  now rewrite !watch_url_search.
Qed.

Lemma watch_url_has_no_video_id_witness :
  extract_video_id "https://www.youtube.com/watch?v=dQw4w9WgXcQ&t=42s" = None.
Proof.
  apply (watch_url_has_no_video_id "https://www." "dQw4w9WgXcQ&t=42s");
    reflexivity.
Defined.

Lemma run_rep_class_hit {A} (p : ascii -> bool) (block rest : string)
    (caps : list string) (k : string -> list string -> option A) :
  all_chars p block = true ->
  run (Rep (String.length block) (Class p)) (block ++ rest) caps k
  = k rest caps.
Proof.
  cbn [run]. induction block as [|c block IH]; intros H; [reflexivity|].
  cbn [all_chars] in H. apply andb_true_iff in H. destruct H as [Hc Hall].
  change (String c block ++ rest) with (String c (block ++ rest)).
  cbn [String.length run]. rewrite Hc. now apply IH.
Qed.

Lemma run_group {A} (r : re) (s : string) (caps : list string)
    (k : string -> list string -> option A) :
  run (Group r) s caps k
  = run r s caps (fun s1 c1 =>
      k s1 (c1 ++ [String.substring 0 (String.length s - String.length s1) s])%list).
Proof. reflexivity. Qed.

(** X18. A short URL, [youtu.be/] and 11 id characters after a prefix without
    the letter y, yields exactly these 11 characters, whatever follows
    them. *)
Theorem short_url_video_id (pre id rest : string) :
  mem_char "y" pre = false ->
  String.length id = 11%nat -> all_chars id_char id = true ->
  extract_video_id (pre ++ "youtu.be/" ++ id ++ rest) = Some id.
Proof.
  intros Hpre Hlen Hall. unfold extract_video_id, video_id_pattern.
  rewrite m_search_skip_pre by exact Hpre.
  rewrite (m_search_hit _ _ [id]); [reflexivity|].
  unfold m_seq. rewrite video_url_prefix_youtu_be.
  unfold m_re, video_id_group. rewrite <- Hlen, run_group.
  rewrite run_rep_class_hit by exact Hall.
  cbn [app]. now rewrite substring_prefix.
Qed.

Lemma short_url_video_id_witness :
  extract_video_id "https://youtu.be/dQw4w9WgXcQ?t=42" = Some "dQw4w9WgXcQ".
Proof.
  apply (short_url_video_id "https://" "dQw4w9WgXcQ" "?t=42"); reflexivity.
Defined.

(** ** The routes *)

Lemma view_status (now : Q) (d : download_info) :
  pv_status (view_of now d) = default_to "unknown" (status d).
Proof.
  unfold view_of. destruct (reparse_raw_line _ _ _) as [[x e] s].
  destruct (String.eqb _ "processing"); reflexivity.
Qed.

Lemma validator_never_raises
    (urlparse : string -> result parsed_url)
    (parse_qs : string -> result (gmap string (list string)))
    (url : string) (e : exn) :
  _is_valid_youtube_url urlparse parse_qs url <> Raise e.
Proof.
  unfold _is_valid_youtube_url.
  now destruct (valid_youtube_url_body urlparse parse_qs url).
Qed.

(** X19. The download route answers 400 exactly when the URL or the format is
    missing or empty. Otherwise it answers 500 with one of the two messages
    of [start_download] and leaves the downloader as it was, or it answers
    with the new task id, and the progress route then shows the task with
    status [starting] and progress 0. *)
Theorem download_video_route_replies
    (urlparse : string -> result parsed_url)
    (parse_qs : string -> result (gmap string (list string)))
    (now now' : Q) (i : string) (env : run_env) (data : download_request)
    (w : world) :
  let r := download_video_route urlparse parse_qs now i env data w in
  (falsy (rq_url data) || falsy (rq_format data) = true /\
   r = (ReplyError 400 "URL and format type are required", w))
  \/
  (falsy (rq_url data) || falsy (rq_format data) = false /\
   ((fst r = ReplyError 500 "Invalid YouTube URL" \/
     fst r = ReplyError 500
               "Invalid format type. Must be 'video', 'audio', or 'thumbnail'")
    /\ snd r = w
    \/
    fst r = ReplyDownloadId i /\
    exists v, get_progress_route now' i (snd r) = ReplyProgress v /\
              pv_status v = "starting" /\ pv_progress v = 0)).
Proof.
  cbv zeta. unfold download_video_route.
  destruct (falsy (rq_url data) || falsy (rq_format data));
    [left; split; reflexivity | right; split; [reflexivity|]].
  unfold start_download.
  destruct (_is_valid_youtube_url urlparse parse_qs _) as [[|]|e] eqn:E.
  - destruct (negb (in_list _ ["video"; "audio"; "thumbnail"])).
    + left. split; [right; reflexivity | reflexivity].
    + right. split; [reflexivity|].
      unfold get_progress_route, get_progress. cbn [snd downloads with_threads].
      rewrite downloads_save, downloads_store. eexists.
      split; [reflexivity|]. split; reflexivity.
  - left. split; [left; reflexivity | reflexivity].
  - now apply validator_never_raises in E.
Qed.

(** X20. The progress route answers with an error exactly for a task id that is
    not in the registry, with the message [Download ID not found], and the
    cancel route answers [success: false] exactly for such an id. *)
Theorem routes_tell_unknown_ids (now : Q) (i : string) (w : world) :
  (get_progress_route now i w = ReplyError 500 "Download ID not found"
   <-> downloads w !! i = None) /\
  ((exists code msg, get_progress_route now i w = ReplyError code msg)
   <-> downloads w !! i = None) /\
  (fst (cancel_download_route i w) = ReplySuccess false
   <-> downloads w !! i = None).
Proof.
  unfold get_progress_route, get_progress, cancel_download_route,
    cancel_download.
  destruct (downloads w !! i) as [d|].
  - repeat split; try discriminate.
    + intros (code & msg & H). discriminate.
    + destruct (is_terminal d); cbn [fst]; discriminate.
  - repeat split; try reflexivity. intros _. now eexists _, _.
Qed.

(** X21. Cancelling through the route a task that has not ended answers
    [success: true]; the progress route then shows the status [canceled]
    and the file route answers 404. *)
Theorem cancel_route_then_poll (now : Q) (i : string) (d : download_info)
    (w : world) :
  downloads w !! i = Some d -> is_terminal d = false ->
  let r := cancel_download_route i w in
  fst r = ReplySuccess true /\
  (exists v, get_progress_route now i (snd r) = ReplyProgress v /\
             pv_status v = "canceled") /\
  get_download_file_route (downloads (snd r)) i
  = NotFound404 "File not found or download not complete".
Proof.
  intros Hd Ht. cbv zeta.
  assert (Hc : downloads (snd (cancel_download i w)) !! i
               = Some (set_status "canceled" d)).
  { unfold cancel_download. rewrite Hd, Ht. cbn [snd].
    rewrite downloads_save.
    destruct (process d); cbn [downloads with_signals]; apply downloads_store. }
  assert (Hf : fst (cancel_download i w) = true).
  { unfold cancel_download. rewrite Hd, Ht. reflexivity. }
  unfold cancel_download_route.
  destruct (cancel_download i w) as [result w'].
  cbn [fst snd] in *. subst result. split; [reflexivity|]. split.
  - unfold get_progress_route, get_progress. rewrite Hc.
    eexists. split; [reflexivity|]. now rewrite view_status.
  - unfold get_download_file_route, get_download_file. now rewrite Hc.
Qed.

Lemma cancel_route_then_poll_witness :
  let r := cancel_download_route "t1" (sample_world "video" (sample_env [] 0)) in
  fst r = ReplySuccess true /\
  (exists v, get_progress_route 5 "t1" (snd r) = ReplyProgress v /\
             pv_status v = "canceled") /\
  get_download_file_route (downloads (snd r)) "t1"
  = NotFound404 "File not found or download not complete".
Proof.
  assert (Hd : downloads (sample_world "video" (sample_env [] 0)) !! "t1"
               = Some (starting_record 0 sample_url "video" "best"))
    by (vm_compute; reflexivity).
  exact (cancel_route_then_poll 5 "t1" _ _ Hd eq_refl).
Defined.
